(** * Gemma 3 Orbax-to-HF checkpoint conversion

    Shallow embedding of
    [src/transformers/models/gemma3/convert_gemma3_weights_orbax_to_hf.py]:
    the SigLIP (vision) and transformer (text) rule tables and the [convert]
    tree walk.  Python strings are Rocq [string]s with the [str] methods the
    script uses written out; numpy arrays are a shape plus a row-major flat
    data list; a raised [ValueError] is an [Err] value. *)

From Stdlib Require Import String Ascii List ZArith Lia Bool.
Import ListNotations.
Open Scope string_scope.

(** ** Python [str] operations *)

Module PyStr.

(** [s.startswith(p)] *)
Definition startswith (s p : string) : bool := String.prefix p s.

Fixpoint rev (s : string) : string :=
  match s with
  | EmptyString => EmptyString
  | String c s' => rev s' ++ String c EmptyString
  end.

(** [s.endswith(p)]: [p] reversed is a prefix of [s] reversed. *)
Definition endswith (s p : string) : bool := String.prefix (rev p) (rev s).

(** [s.find(sub)]: first index at which [sub] occurs, or [-1]. *)
Fixpoint find_from (s sub : string) (i : nat) : Z :=
  if String.prefix sub s then Z.of_nat i
  else match s with
       | EmptyString => (-1)%Z
       | String _ s' => find_from s' sub (S i)
       end.

Definition find (s sub : string) : Z := find_from s sub 0.

(** [sub in s] *)
Fixpoint contains (s sub : string) : bool :=
  String.prefix sub s ||
  match s with
  | EmptyString => false
  | String _ s' => contains s' sub
  end.

(** Python index normalisation of a slice bound: a negative bound counts
    from the end, clamped at 0. *)
Definition norm_index (s : string) (i : Z) : nat :=
  if (i <? 0)%Z then String.length s - Z.to_nat (- i) else Z.to_nat i.

(** [s[:i]] *)
Definition slice_to (s : string) (i : Z) : string :=
  substring 0 (norm_index s i) s.

(** [s[i:]] *)
Definition slice_from (s : string) (i : Z) : string :=
  let n := norm_index s i in substring n (String.length s - n) s.

End PyStr.

(** ** Raised errors *)

(** The [ValueError]s the script raises, by the [raise] site they come
    from; the numpy errors of a shape that does not fit a transform or an
    unpacking; and the [TypeError] of [torch.from_numpy] when it is handed a
    numpy scalar instead of an [ndarray]. *)
Inductive err : Type :=
  | UnexpectedMember (prop path : string)
  | UnexpectedSubpath (path : string)
  | UnexpectedPath (path : string)
  | LengthMismatch (cpl cwl : nat) (path : string)
  | ShapeError
  | FromNumpyTypeError.

Inductive result (A : Type) : Type :=
  | Ok (a : A)
  | Err (e : err).
Arguments Ok {A} a.
Arguments Err {A} e.

Definition bind {A B} (m : result A) (f : A -> result B) : result B :=
  match m with Ok a => f a | Err e => Err e end.

Notation "'let*' x ':=' m 'in' f" := (bind m (fun x => f))
  (at level 200, x name, m at level 100, f at level 200).

(** ** numpy arrays *)

Module NP.

Inductive dtype : Type := float32 | bfloat16 | float16 | int8 | int4.

(** Element values are abstract numbers; the data is stored row-major.
    [is_scalar] marks a numpy scalar ([numpy.generic], shape [()]), which is
    what iterating over a 1-D array yields, as against an [ndarray]. *)
Record ndarray : Type := mk_ndarray {
  dtype_of : dtype;
  shape : list nat;
  data : list Z;
  is_scalar : bool
}.

(** An [ndarray] (not a numpy scalar). *)
Abbreviation mk_nd dt sh d := (mk_ndarray dt sh d false).

Definition size (sh : list nat) : nat := fold_right Nat.mul 1 sh.

Definition ndim (a : ndarray) : nat := List.length (shape a).

Fixpoint unravel (j : nat) (sh : list nat) : list nat :=
  match sh with
  | [] => []
  | _ :: sh' => (j / size sh') :: unravel (j mod size sh') sh'
  end.

Fixpoint ravel (ix sh : list nat) : nat :=
  match ix, sh with
  | i :: ix', _ :: sh' => i * size sh' + ravel ix' sh'
  | _, _ => 0
  end.

Fixpoint index_of (m : nat) (l : list nat) : nat :=
  match l with
  | [] => 0
  | x :: l' => if Nat.eqb x m then 0 else S (index_of m l')
  end.

Definition is_perm (axes : list nat) (n : nat) : bool :=
  Nat.eqb (List.length axes) n &&
  forallb (fun m => existsb (Nat.eqb m) axes) (seq 0 n).

(** [a.transpose(a0, a1, ...)]; the transpose of a numpy scalar is a
    numpy scalar. *)
Definition transpose (axes : list nat) (a : ndarray) : result ndarray :=
  let sh := shape a in
  let n := List.length sh in
  if is_perm axes n then
    let sh' := map (fun k => nth k sh 0) axes in
    let src j :=
      let J := unravel j sh' in
      ravel (map (fun m => nth (index_of m axes) J 0) (seq 0 n)) sh in
    Ok (mk_ndarray (dtype_of a) sh'
              (map (fun j => nth (src j) (data a) 0%Z) (seq 0 (size sh')))
              (is_scalar a))
  else Err ShapeError.

(** [a.transpose()] reverses the axes. *)
Definition transpose_all (a : ndarray) : result ndarray :=
  transpose (List.rev (seq 0 (ndim a))) a.

(** [a.reshape(d0, d1, ...)], at most one entry [-1]; the result is an
    [ndarray]. *)
Definition reshape (newshape : list Z) (a : ndarray) : result ndarray :=
  let n := size (shape a) in
  let unknown := List.length (filter (fun d => Z.eqb d (-1)) newshape) in
  let known := size (map Z.to_nat (filter (fun d => negb (Z.eqb d (-1))) newshape)) in
  if existsb (fun d => Z.ltb d (-1)) newshape then Err ShapeError
  else if Nat.ltb 1 unknown then Err ShapeError
  else if Nat.eqb unknown 1 then
    if Nat.eqb known 0 then Err ShapeError
    else if negb (Nat.eqb (n mod known) 0) then Err ShapeError
    else Ok (mk_nd (dtype_of a)
               (map (fun d => if Z.eqb d (-1) then n / known else Z.to_nat d) newshape)
               (data a))
  else if Nat.eqb known n then
    Ok (mk_nd (dtype_of a) (map Z.to_nat newshape) (data a))
  else Err ShapeError.

(** [a[i]] for the leading axis: a numpy scalar when [a] is 1-D, an
    [ndarray] otherwise. *)
Definition index0 (a : ndarray) (i : nat) : ndarray :=
  let s := size (tl (shape a)) in
  mk_ndarray (dtype_of a) (tl (shape a)) (firstn s (skipn (i * s) (data a)))
    (match tl (shape a) with [] => true | _ :: _ => false end).

(** [x, y = a]: iteration over the leading axis unpacked into two names. *)
Definition unpack2 (a : ndarray) : result (ndarray * ndarray) :=
  match shape a with
  | 2 :: _ => Ok (index0 a 0, index0 a 1)
  | _ => Err ShapeError
  end.

(** [a.astype(dt)] (numpy) and [t.type(dt)] (torch), with [cast dt] the
    rounding of one value into [dt]; numpy's [astype] keeps a numpy scalar
    a numpy scalar. *)
Definition astype (cast : dtype -> Z -> Z) (dt : dtype) (a : ndarray) : ndarray :=
  mk_ndarray dt (shape a) (map (cast dt) (data a)) (is_scalar a).

End NP.

Import PyStr NP.

(** ** Configuration *)

(** The fields of [Gemma3TextConfig] the conversion reads. *)
Record Gemma3TextConfig : Type := {
  hidden_size : nat;
  num_attention_heads : nat;
  num_key_value_heads : nat;
  head_dim : nat
}.

(** The field of [Gemma3VisionConfig] the conversion reads. *)
Record Gemma3VisionConfig : Type := {
  vision_hidden_size : nat
}.

Record Gemma3Config : Type := {
  text_config : Gemma3TextConfig;
  vision_config : option Gemma3VisionConfig
}.

(** ** Internal constants *)

Definition _SIGLIP_BASE := "SigLiPFromPatches_0/siglip_encoder".
Definition _SIGLIP_EMBEDDING := "SigLiPFromPatches_0/siglip_encoder/embedding".
Definition _SIGLIP_TRANSFORMER_ENCODER_BLOCK :=
  "SigLiPFromPatches_0/siglip_encoder/Transformer/encoderblock_".
Definition _SIGLIP_TRANSFORMER_ENCODER_BLOCK_LEN :=
  String.length _SIGLIP_TRANSFORMER_ENCODER_BLOCK.
Definition _SIGLIP_TRANSFORMER_ENCODER_NORM :=
  "SigLiPFromPatches_0/siglip_encoder/Transformer/encoder_norm".

Definition _TRANSFORMER_DECODER_BLOCK := "transformer/layer_".
Definition _TRANSFORMER_DECODER_BLOCK_LEN := String.length _TRANSFORMER_DECODER_BLOCK.
Definition _TRANSFORMER_EMBEDDER := "transformer/embedder".
Definition _TRANSFORMER_FINAL_NORM := "transformer/final_norm".

(** ** [_convert_siglip_weight] *)

Definition _convert_siglip_weight (config : Gemma3VisionConfig)
    (paths : string * string) (weights : ndarray) : result (string * ndarray) :=
  let (path, prop) := paths in
  let hs := Z.of_nat (vision_hidden_size config) in
  if String.eqb path _SIGLIP_BASE then
    let* w := reshape [(-1)%Z; hs] weights in
    Ok ("vision_model.vision_model.embeddings.position_embedding.weight", w)
  else if String.eqb path _SIGLIP_EMBEDDING then
    if String.eqb prop "kernel" then
      let* w := transpose [3; 2; 0; 1] weights in
      Ok ("vision_model.vision_model.embeddings.patch_embedding.weight", w)
    else if String.eqb prop "bias" then
      Ok ("vision_model.vision_model.embeddings.patch_embedding.bias", weights)
    else Err (UnexpectedMember prop path)
  else if startswith path _SIGLIP_TRANSFORMER_ENCODER_BLOCK then
    let encoder_block_path :=
      slice_from path (Z.of_nat _SIGLIP_TRANSFORMER_ENCODER_BLOCK_LEN) in
    let next_path_seperator_idx := find encoder_block_path "/" in
    let layer_idx := slice_to encoder_block_path next_path_seperator_idx in
    let encoder_block_path := slice_from encoder_block_path next_path_seperator_idx in
    let normalized_path := "vision_model.vision_model.encoder.layers." ++ layer_idx in
    if startswith encoder_block_path "/LayerNorm" then
      let normalized_path := normalized_path ++
        (if endswith path "_0" then ".layer_norm1" else ".layer_norm2") in
      if String.eqb prop "scale" then
        let* w := transpose_all weights in Ok (normalized_path ++ ".weight", w)
      else if String.eqb prop "bias" then
        Ok (normalized_path ++ ".bias", weights)
      else Err (UnexpectedMember prop path)
    else if startswith encoder_block_path "/MlpBlock_0" then
      let normalized_path := normalized_path ++
        (if contains encoder_block_path "/Dense_0" then ".mlp.fc1" else ".mlp.fc2") in
      if String.eqb prop "kernel" then
        let* w := transpose_all weights in Ok (normalized_path ++ ".weight", w)
      else if String.eqb prop "bias" then
        Ok (normalized_path ++ ".bias", weights)
      else Err (UnexpectedMember prop path)
    else if startswith encoder_block_path "/MultiHeadDotProductAttention_0" then
      let* normalized_path :=
        if endswith encoder_block_path "/key" then Ok (normalized_path ++ ".self_attn.k_proj")
        else if endswith encoder_block_path "/out" then Ok (normalized_path ++ ".self_attn.out_proj")
        else if endswith encoder_block_path "/query" then Ok (normalized_path ++ ".self_attn.q_proj")
        else if endswith encoder_block_path "/value" then Ok (normalized_path ++ ".self_attn.v_proj")
        else Err (UnexpectedPath path) in
      if String.eqb prop "bias" then
        let* w1 := reshape [(-1)%Z; hs] weights in
        let* w := reshape [(-1)%Z] w1 in
        Ok (normalized_path ++ ".bias", w)
      else if String.eqb prop "kernel" then
        let* w1 := reshape [(-1)%Z; hs] weights in
        let* w := transpose_all w1 in
        Ok (normalized_path ++ ".weight", w)
      else Err (UnexpectedMember prop path)
    else Err (UnexpectedPath path)
  else if String.eqb path _SIGLIP_TRANSFORMER_ENCODER_NORM then
    if String.eqb prop "scale" then
      let* w := transpose_all weights in
      Ok ("vision_model.vision_model.post_layernorm.weight", w)
    else if String.eqb prop "bias" then
      Ok ("vision_model.vision_model.post_layernorm.bias", weights)
    else Err (UnexpectedMember prop path)
  else Err (UnexpectedPath path).

(** ** [_convert_transformer_weights] *)

(** The closing check of [_convert_transformer_weights]: the produced paths
    and arrays must have the same length; they are then zipped. *)
Definition _check_and_zip (path : string) (converted_paths : list string)
    (converted_weights : list ndarray) : result (list (string * ndarray)) :=
  let cpl := List.length converted_paths in
  let cwl := List.length converted_weights in
  if negb (Nat.eqb cpl cwl) then Err (LengthMismatch cpl cwl path)
  else Ok (combine converted_paths converted_weights).

Definition _convert_transformer_weights (config : Gemma3TextConfig)
    (paths : string * string) (weights : ndarray)
    : result (list (string * ndarray)) :=
  let (path, prop) := paths in
  let hs := Z.of_nat (hidden_size config) in
  let attn_head_dim := Z.of_nat (num_attention_heads config * head_dim config) in
  let kv_head_dim := Z.of_nat (num_key_value_heads config * head_dim config) in
  if String.eqb path _TRANSFORMER_EMBEDDER then
    if String.eqb prop "input_embedding" then
      _check_and_zip path
        ["language_model.model.embed_tokens.weight"; "language_model.lm_head.weight"]
        [weights; weights]
    else if String.eqb prop "mm_input_embedding_extra" then Ok []
    else if String.eqb prop "mm_output_embedding" then Ok []
    else Err (UnexpectedMember prop path)
  else if startswith path (_TRANSFORMER_EMBEDDER ++ "/mm") then
    if endswith path "/mm_input_projection" then Ok []
    else if endswith path "/mm_soft_embedding_norm" then Ok []
    else Err (UnexpectedSubpath path)
  else if String.eqb path _TRANSFORMER_FINAL_NORM then
    _check_and_zip path ["language_model.model.norm.weight"] [weights]
  else if startswith path _TRANSFORMER_DECODER_BLOCK then
    let decoder_block_path :=
      slice_from path (Z.of_nat _TRANSFORMER_DECODER_BLOCK_LEN) in
    let next_path_seperator_idx := find decoder_block_path "/" in
    let layer_idx := slice_to decoder_block_path next_path_seperator_idx in
    let base_path := "language_model.model.layers." ++ layer_idx in
    if endswith path "attn/attn_vec_einsum" then
      let* t := transpose [2; 0; 1] weights in
      let* w := reshape [hs; attn_head_dim] t in
      _check_and_zip path [base_path ++ ".self_attn.o_proj.weight"] [w]
    else if endswith path "attn/_key_norm" then
      _check_and_zip path [base_path ++ ".self_attn.k_norm.weight"] [weights]
    else if endswith path "attn/kv_einsum" then
      let* kv := unpack2 weights in
      let (k_proj_weights, v_proj_weights) := kv in
      let* tk := transpose [0; 2; 1] k_proj_weights in
      let* k := reshape [kv_head_dim; hs] tk in
      let* tv := transpose [0; 2; 1] v_proj_weights in
      let* v := reshape [kv_head_dim; hs] tv in
      _check_and_zip path
        [base_path ++ ".self_attn.k_proj.weight"; base_path ++ ".self_attn.v_proj.weight"]
        [k; v]
    else if endswith path "attn/q_einsum" then
      let* t := transpose [0; 2; 1] weights in
      let* w := reshape [attn_head_dim; hs] t in
      _check_and_zip path [base_path ++ ".self_attn.q_proj.weight"] [w]
    else if endswith path "attn/_query_norm" then
      _check_and_zip path [base_path ++ ".self_attn.q_norm.weight"] [weights]
    else if endswith path "mlp/gating_einsum" then
      let* gu := unpack2 weights in
      let (gate_proj_weight, up_proj_weight) := gu in
      _check_and_zip path
        [base_path ++ ".mlp.gate_proj.weight"; base_path ++ ".mlp.up_proj.weight"]
        [gate_proj_weight; up_proj_weight]
    else if endswith path "mlp/linear" then
      let* w := transpose_all weights in
      _check_and_zip path [base_path ++ ".mlp.down_proj.weight"] [w]
    else if endswith path "post_attention_norm" then
      _check_and_zip path [base_path ++ ".post_attention_layernorm.weight"] [weights]
    else if endswith path "post_ffw_norm" then
      _check_and_zip path [base_path ++ ".post_feedforward_layernorm.weight"] [weights]
    else if endswith path "pre_attention_norm" then
      _check_and_zip path [base_path ++ ".input_layernorm.weight"] [weights]
    else if endswith path "pre_ffw_norm" then
      _check_and_zip path [base_path ++ ".pre_feedforward_layernorm.weight"] [weights]
    else Err (UnexpectedPath path)
  else Err (UnexpectedPath path).

(** ** [transpose_reshape] *)

(** torch [x.transpose(1, 2)] then [x.reshape(x.shape[0] * x.shape[1], x.shape[2])];
    [.contiguous()] does not change the values, and a rank below 3 has no
    axis 2. The script defines this helper; [convert] does not call it. *)
Definition transpose_reshape (x : ndarray) : result ndarray :=
  let n := ndim x in
  if Nat.ltb n 3 then Err ShapeError
  else
    let* x := transpose (0 :: 2 :: 1 :: seq 3 (n - 3)) x in
    match shape x with
    | s0 :: s1 :: s2 :: _ => reshape [Z.of_nat (s0 * s1); Z.of_nat s2] x
    | _ => Err ShapeError
    end.

(** ** [convert] *)

(** A leaf of [tree.flatten_with_path(ckpt)]: the pair [(path, prop)] of
    dictionary keys and the array. *)
Definition leaf : Type := (string * string) * ndarray.

(** A Python [dict] keeps insertion order; assigning an existing key
    replaces its value in place. *)
Fixpoint dict_set {V} (d : list (string * V)) (k : string) (v : V) : list (string * V) :=
  match d with
  | [] => [(k, v)]
  | (k', v') :: d' => if String.eqb k' k then (k, v) :: d' else (k', v') :: dict_set d' k v
  end.

Definition language_model_prefix := "language_model.".

(** The [(path, weights)] pairs one leaf hands to [update_tree], in order. *)
Definition convert_leaf (config : Gemma3Config) (l : leaf)
    : result (list (string * ndarray)) :=
  let (paths, value) := l in
  if startswith (fst paths) "SigLiPFromPatches_" then
    match vision_config config with
    | None => Ok []
    | Some vc =>
        let* pw := _convert_siglip_weight vc paths value in
        Ok [pw]
    end
  else
    let* pws := _convert_transformer_weights (text_config config) paths value in
    Ok (map (fun pw =>
               match vision_config config with
               | None => (slice_from (fst pw) (Z.of_nat (String.length language_model_prefix)), snd pw)
               | Some _ => pw
               end) pws).

Section Convert.

(** [cast dt x]: the value [x] rounded to the precision of [dt]. *)
Variable cast : dtype -> Z -> Z.
Variable config : Gemma3Config.
Variable target_dtype : dtype.

(** [update_tree]: [torch.from_numpy] accepts an [ndarray] only and
    raises a [TypeError] on a numpy scalar. *)
Definition update_tree (hf_tree : list (string * ndarray)) (path : string)
    (weights : ndarray) : result (list (string * ndarray)) :=
  let w := astype cast float32 weights in
  if is_scalar w then Err FromNumpyTypeError
  else Ok (dict_set hf_tree path (astype cast target_dtype w)).

(** [for path, weights in ...: update_tree(path, weights)] *)
Fixpoint update_pairs (hf_tree : list (string * ndarray))
    (pws : list (string * ndarray)) : result (list (string * ndarray)) :=
  match pws with
  | [] => Ok hf_tree
  | (path, weights) :: rest =>
      let* t := update_tree hf_tree path weights in
      update_pairs t rest
  end.

Fixpoint convert_loop (hf_tree : list (string * ndarray)) (ckpt : list leaf)
    : result (list (string * ndarray)) :=
  match ckpt with
  | [] => Ok hf_tree
  | l :: rest =>
      let* pws := convert_leaf config l in
      let* t := update_pairs hf_tree pws in
      convert_loop t rest
  end.

(** [convert], on the already restored checkpoint: the [state_tree] of the
    [ConversionResult]. *)
Definition convert (ckpt : list leaf) : result (list (string * ndarray)) :=
  convert_loop [] ckpt.

End Convert.

(** All [(path, weights)] pairs a run hands to [update_tree], in order. *)
Fixpoint convert_emitted (config : Gemma3Config) (ckpt : list leaf)
    : result (list (string * ndarray)) :=
  match ckpt with
  | [] => Ok []
  | l :: rest =>
      let* pws := convert_leaf config l in
      let* more := convert_emitted config rest in
      Ok (pws ++ more)%list
  end.

(** The dictionary after [update_tree] on each pair of [em], in order,
    when none of them is a numpy scalar. *)
Definition update_all cast target (em hf : list (string * ndarray)) :=
  fold_left (fun t pw => dict_set t (fst pw) (astype cast target (astype cast float32 (snd pw)))) em hf.

(** No weight of the pairs [em] is a numpy scalar. *)
Definition no_scalars (em : list (string * ndarray)) : bool :=
  forallb (fun pw => negb (is_scalar (snd pw))) em.

(** The error the iteration of the loop of [convert] on the leaf [l]
    raises, if any: the leaf's rule error, or the [TypeError] of
    [update_tree] on a numpy scalar. *)
Definition leaf_error (config : Gemma3Config) (l : leaf) : option err :=
  match convert_leaf config l with
  | Err e => Some e
  | Ok pws => if no_scalars pws then None else Some FromNumpyTypeError
  end.

(** * Small concrete inputs *)

(** The array [numpy.arange(size).reshape(sh)] in bfloat16. *)
Definition arange (sh : list nat) : ndarray :=
  mk_nd bfloat16 sh (map Z.of_nat (seq 0 (size sh))).

Definition tiny_text_config : Gemma3TextConfig :=
  {| hidden_size := 4; num_attention_heads := 2; num_key_value_heads := 1; head_dim := 3 |}.

Definition tiny_vision_config : Gemma3VisionConfig := {| vision_hidden_size := 2 |}.

Definition tiny_config_text_only : Gemma3Config :=
  {| text_config := tiny_text_config; vision_config := None |}.

Definition tiny_config_multimodal : Gemma3Config :=
  {| text_config := tiny_text_config; vision_config := Some tiny_vision_config |}.

(** A rounding that drops the lowest bit below float32. *)
Definition example_cast (dt : dtype) (x : Z) : Z :=
  match dt with float32 => x | _ => 2 * (x / 2) end.

(** A small checkpoint: an embedding, two final-norm leaves for the same
    key and a SigLIP leaf. *)
Definition example_ckpt : list leaf :=
  [(("transformer/embedder", "input_embedding"), arange [3; 4]);
   (("transformer/final_norm", "scale"), arange [4]);
   (("SigLiPFromPatches_0/siglip_encoder/embedding", "bias"), arange [2]);
   (("transformer/final_norm", "scale"), mk_nd bfloat16 [4] [7; 7; 7; 7]%Z)].

(** The same followed by a leaf no rule accepts. *)
Definition example_bad_ckpt : list leaf :=
  example_ckpt ++ [(("transformer/layer_0/mlp/unknown_leaf", "w"), arange [1])].

(** The same with, before the bad leaf, a decoder-block
    ["mlp/gating_einsum"] leaf holding a 1-D array: unpacking it yields two
    numpy scalars. *)
Definition example_scalar_ckpt : list leaf :=
  example_ckpt ++
  [(("transformer/layer_0/mlp/gating_einsum", "w"), arange [2]);
   (("transformer/layer_0/mlp/unknown_leaf", "w"), arange [1])].

(** The list of a successful result. *)
Definition ok_or_nil {A} (r : result (list A)) : list A :=
  match r with Ok l => l | Err _ => [] end.

(** The key of a successful result. *)
Definition fst_or_empty {A} (r : result (string * A)) : string :=
  match r with Ok (k, _) => k | Err _ => "" end.

(** * Vocabulary of the statements *)

(** The four attention projections of a SigLIP encoder block, with the
    path suffix that selects each and the destination name it gets. *)
Inductive attn_proj : Type := AttnKey | AttnOut | AttnQuery | AttnValue.

Definition attn_suffix (p : attn_proj) : string :=
  match p with
  | AttnKey => "/key" | AttnOut => "/out" | AttnQuery => "/query" | AttnValue => "/value"
  end.

Definition attn_name (p : attn_proj) : string :=
  match p with
  | AttnKey => ".self_attn.k_proj" | AttnOut => ".self_attn.out_proj"
  | AttnQuery => ".self_attn.q_proj" | AttnValue => ".self_attn.v_proj"
  end.

(** The rule shapes of the text-branch rule table as the specification
    lists them (spec section 4.3), to be compared with the dispatch of
    [_convert_transformer_weights]. *)
Definition decoder_block_suffixes : list string :=
  ["attn/attn_vec_einsum"; "attn/_key_norm"; "attn/kv_einsum"; "attn/q_einsum";
   "attn/_query_norm"; "mlp/gating_einsum"; "mlp/linear"; "post_attention_norm";
   "post_ffw_norm"; "pre_attention_norm"; "pre_ffw_norm"].

Definition text_rule_matches (path prop : string) : bool :=
  (String.eqb path _TRANSFORMER_EMBEDDER &&
   existsb (String.eqb prop) ["input_embedding"; "mm_input_embedding_extra"; "mm_output_embedding"])
  || (startswith path (_TRANSFORMER_EMBEDDER ++ "/mm") &&
      (endswith path "/mm_input_projection" || endswith path "/mm_soft_embedding_norm"))
  || String.eqb path _TRANSFORMER_FINAL_NORM
  || (startswith path _TRANSFORMER_DECODER_BLOCK &&
      existsb (endswith path) decoder_block_suffixes).

(** The errors raised for an unrecognized path, sub-path or member. *)
Definition rule_error (e : err) : bool :=
  match e with
  | UnexpectedMember _ _ | UnexpectedSubpath _ | UnexpectedPath _ => true
  | _ => false
  end.

(** The decoder-block layer index of [_TRANSFORMER_DECODER_BLOCK ++ r]. *)
Definition decoder_base_path (r : string) : string :=
  "language_model.model.layers." ++ slice_to r (find r "/").

(** A key with the wrapper prefix ["language_model."], and what
    stripping that prefix leaves. *)
Definition lm_stripped (k : string) : Prop :=
  exists r, k = language_model_prefix ++ r /\
            slice_from k (Z.of_nat (String.length language_model_prefix)) = r.

(** The destination keys of the text branch: ["language_model."] followed
    by ["model.<...>"] or by ["lm_head.weight"]. *)
Definition text_key_form (k : string) : Prop :=
  exists r, k = language_model_prefix ++ r /\
            ((exists x, r = "model." ++ x) \/ r = "lm_head.weight").

(** ** The leaves of a Gemma 3 checkpoint

    The leaves an Orbax Gemma 3 checkpoint holds, one constructor per
    [(path, prop)] layout the rule tables were written for; a layer index
    is a string of its own. *)

(** The leaves of a decoder block, in the order of the rule table. *)
Inductive text_part : Type :=
  | TAttnVecEinsum | TKeyNorm | TKvEinsum | TQEinsum | TQueryNorm | TGatingEinsum
  | TLinear | TPostAttentionNorm | TPostFfwNorm | TPreAttentionNorm | TPreFfwNorm.

Definition all_text_parts : list text_part :=
  [TAttnVecEinsum; TKeyNorm; TKvEinsum; TQEinsum; TQueryNorm; TGatingEinsum;
   TLinear; TPostAttentionNorm; TPostFfwNorm; TPreAttentionNorm; TPreFfwNorm].

(** The path below ["transformer/layer_<idx>"] and the property. *)
Definition text_part_leaf (p : text_part) : string * string :=
  match p with
  | TAttnVecEinsum => ("/attn/attn_vec_einsum", "w")
  | TKeyNorm => ("/attn/_key_norm", "scale")
  | TKvEinsum => ("/attn/kv_einsum", "w")
  | TQEinsum => ("/attn/q_einsum", "w")
  | TQueryNorm => ("/attn/_query_norm", "scale")
  | TGatingEinsum => ("/mlp/gating_einsum", "w")
  | TLinear => ("/mlp/linear", "w")
  | TPostAttentionNorm => ("/post_attention_norm", "scale")
  | TPostFfwNorm => ("/post_ffw_norm", "scale")
  | TPreAttentionNorm => ("/pre_attention_norm", "scale")
  | TPreFfwNorm => ("/pre_ffw_norm", "scale")
  end.

(** The key suffixes after ["language_model.model.layers.<idx>"]. *)
Definition text_part_keys (p : text_part) : list string :=
  match p with
  | TAttnVecEinsum => [".self_attn.o_proj.weight"]
  | TKeyNorm => [".self_attn.k_norm.weight"]
  | TKvEinsum => [".self_attn.k_proj.weight"; ".self_attn.v_proj.weight"]
  | TQEinsum => [".self_attn.q_proj.weight"]
  | TQueryNorm => [".self_attn.q_norm.weight"]
  | TGatingEinsum => [".mlp.gate_proj.weight"; ".mlp.up_proj.weight"]
  | TLinear => [".mlp.down_proj.weight"]
  | TPostAttentionNorm => [".post_attention_layernorm.weight"]
  | TPostFfwNorm => [".post_feedforward_layernorm.weight"]
  | TPreAttentionNorm => [".input_layernorm.weight"]
  | TPreFfwNorm => [".pre_feedforward_layernorm.weight"]
  end.

(** The leaves of a SigLIP encoder block; the boolean [second] picks
    [LayerNorm_1] or [Dense_1], the boolean [bias] the ["bias"] property. *)
Inductive vision_part : Type :=
  | VLayerNorm (second bias : bool)
  | VMlp (second bias : bool)
  | VAttn (p : attn_proj) (bias : bool).

Definition all_vision_parts : list vision_part :=
  flat_map (fun b => [VLayerNorm false b; VLayerNorm true b; VMlp false b; VMlp true b;
                      VAttn AttnKey b; VAttn AttnOut b; VAttn AttnQuery b; VAttn AttnValue b])
    [false; true].

(** The path below ["...encoderblock_<idx>"] and the property. *)
Definition vision_part_leaf (v : vision_part) : string * string :=
  match v with
  | VLayerNorm second bias =>
      (if second then "/LayerNorm_1" else "/LayerNorm_0", if bias then "bias" else "scale")
  | VMlp second bias =>
      (if second then "/MlpBlock_0/Dense_1" else "/MlpBlock_0/Dense_0",
       if bias then "bias" else "kernel")
  | VAttn p bias =>
      ("/MultiHeadDotProductAttention_0" ++ attn_suffix p, if bias then "bias" else "kernel")
  end.

(** The key suffix after ["vision_model.vision_model.encoder.layers.<idx>"]. *)
Definition vision_part_key (v : vision_part) : string :=
  match v with
  | VLayerNorm second bias =>
      (if second then ".layer_norm2" else ".layer_norm1") ++ (if bias then ".bias" else ".weight")
  | VMlp second bias =>
      (if second then ".mlp.fc2" else ".mlp.fc1") ++ (if bias then ".bias" else ".weight")
  | VAttn p bias => attn_name p ++ (if bias then ".bias" else ".weight")
  end.

Inductive canon_leaf : Type :=
  | CInputEmbedding | CMmInputEmbeddingExtra | CMmOutputEmbedding
  | CMmInputProjection | CMmSoftEmbeddingNorm | CFinalNorm
  | CDecoder (idx : string) (p : text_part)
  | CSiglipPosEmbedding | CSiglipPatch (bias : bool)
  | CSiglipBlock (idx : string) (v : vision_part)
  | CSiglipNorm (bias : bool).

(** The [(path, prop)] of a leaf. *)
Definition canon_paths (c : canon_leaf) : string * string :=
  match c with
  | CInputEmbedding => (_TRANSFORMER_EMBEDDER, "input_embedding")
  | CMmInputEmbeddingExtra => (_TRANSFORMER_EMBEDDER, "mm_input_embedding_extra")
  | CMmOutputEmbedding => (_TRANSFORMER_EMBEDDER, "mm_output_embedding")
  | CMmInputProjection => (_TRANSFORMER_EMBEDDER ++ "/mm_input_projection", "w")
  | CMmSoftEmbeddingNorm => (_TRANSFORMER_EMBEDDER ++ "/mm_soft_embedding_norm", "scale")
  | CFinalNorm => (_TRANSFORMER_FINAL_NORM, "scale")
  | CDecoder idx p =>
      (_TRANSFORMER_DECODER_BLOCK ++ idx ++ fst (text_part_leaf p), snd (text_part_leaf p))
  | CSiglipPosEmbedding => (_SIGLIP_BASE, "pos_embedding")
  | CSiglipPatch bias => (_SIGLIP_EMBEDDING, if bias then "bias" else "kernel")
  | CSiglipBlock idx v =>
      (_SIGLIP_TRANSFORMER_ENCODER_BLOCK ++ idx ++ fst (vision_part_leaf v), snd (vision_part_leaf v))
  | CSiglipNorm bias => (_SIGLIP_TRANSFORMER_ENCODER_NORM, if bias then "bias" else "scale")
  end.

(** A layer index holds no ['/'] (the path separator) and no ['.'] (the
    key separator). *)
Definition canon_ok (c : canon_leaf) : bool :=
  match c with
  | CDecoder idx _ | CSiglipBlock idx _ => negb (contains idx "/") && negb (contains idx ".")
  | _ => true
  end.

Definition text_layers_prefix := "language_model.model.layers.".
Definition vision_layers_prefix := "vision_model.vision_model.encoder.layers.".

(** The keys the text branch gives a leaf, before any stripping. *)
Definition text_keys (c : canon_leaf) : list string :=
  match c with
  | CInputEmbedding => ["language_model.model.embed_tokens.weight"; "language_model.lm_head.weight"]
  | CFinalNorm => ["language_model.model.norm.weight"]
  | CDecoder idx p => map (fun s => text_layers_prefix ++ idx ++ s) (text_part_keys p)
  | _ => []
  end.

(** The keys the vision branch gives a leaf. *)
Definition vision_keys (c : canon_leaf) : list string :=
  match c with
  | CSiglipPosEmbedding => ["vision_model.vision_model.embeddings.position_embedding.weight"]
  | CSiglipPatch bias =>
      [if bias then "vision_model.vision_model.embeddings.patch_embedding.bias"
       else "vision_model.vision_model.embeddings.patch_embedding.weight"]
  | CSiglipBlock idx v => [vision_layers_prefix ++ idx ++ vision_part_key v]
  | CSiglipNorm bias =>
      [if bias then "vision_model.vision_model.post_layernorm.bias"
       else "vision_model.vision_model.post_layernorm.weight"]
  | _ => []
  end.

Definition is_vision_leaf (c : canon_leaf) : bool :=
  match c with
  | CSiglipPosEmbedding | CSiglipPatch _ | CSiglipBlock _ _ | CSiglipNorm _ => true
  | _ => false
  end.

(** The keys [convert] hands to [update_tree] for a leaf. *)
Definition keys_cfg (cfg : Gemma3Config) (c : canon_leaf) : list string :=
  match vision_config cfg with
  | None => map (fun k => slice_from k (Z.of_nat (String.length language_model_prefix))) (text_keys c)
  | Some _ => text_keys c ++ vision_keys c
  end.

(** A checkpoint made of such leaves. *)
Definition canon_ckpt (cws : list (canon_leaf * ndarray)) : list leaf :=
  map (fun cw => (canon_paths (fst cw), snd cw)) cws.

(** Reading a key back: the prefix, the layer index up to the separator [c],
    and the rest, parsed the way the script parses its paths. *)
Definition split_index (P k : string) (c : ascii) : string * string :=
  let r := slice_from k (Z.of_nat (String.length P)) in
  let i := find r (String c "") in
  (slice_to r i, slice_from r i).

Definition decode_text_suffix (s : string) : option text_part :=
  List.find (fun p => existsb (String.eqb s) (text_part_keys p)) all_text_parts.

Definition decode_vision_suffix (s : string) : option vision_part :=
  List.find (fun v => String.eqb s (vision_part_key v)) all_vision_parts.

Definition top_leaves : list canon_leaf :=
  [CInputEmbedding; CFinalNorm; CSiglipPosEmbedding; CSiglipPatch false; CSiglipPatch true;
   CSiglipNorm false; CSiglipNorm true].

(** The leaf a destination key comes from. *)
Definition decode_key (k : string) : option canon_leaf :=
  if startswith k text_layers_prefix then
    let (idx, s) := split_index text_layers_prefix k "." in
    option_map (CDecoder idx) (decode_text_suffix s)
  else if startswith k vision_layers_prefix then
    let (idx, s) := split_index vision_layers_prefix k "." in
    option_map (CSiglipBlock idx) (decode_vision_suffix s)
  else List.find (fun c => existsb (String.eqb k) (text_keys c ++ vision_keys c)) top_leaves.

(** The dictionary [update_tree] builds from [em] when no key repeats. *)
Definition stored (cast : dtype -> Z -> Z) (target : dtype) (em : list (string * ndarray))
    : list (string * ndarray) :=
  map (fun kw => (fst kw, astype cast target (astype cast float32 (snd kw)))) em.

(** A small checkpoint of such leaves. *)
Definition example_canon_ckpt : list (canon_leaf * ndarray) :=
  [(CInputEmbedding, arange [3; 4]); (CDecoder "0" TKvEinsum, arange [2; 1; 4; 3]);
   (CDecoder "0" TGatingEinsum, arange [2; 2; 3]); (CDecoder "1" TPreFfwNorm, arange [4]);
   (CFinalNorm, arange [4]); (CMmInputProjection, arange [2]);
   (CSiglipBlock "0" (VAttn AttnQuery false), arange [2; 1; 2]); (CSiglipPatch true, arange [2])].

(** A Gemma 3 checkpoint whose ["mlp/gating_einsum"] leaf holds a 1-D array. *)
Definition example_canon_scalar_ckpt : list (canon_leaf * ndarray) :=
  [(CInputEmbedding, arange [3; 4]); (CDecoder "0" TGatingEinsum, arange [2])].

(** ** Dictionaries and the decoder-block norm rules *)

(** [hf_tree[k]] on a dictionary, [None] for a missing key. *)
Definition dict_get {V} (d : list (string * V)) (k : string) : option V :=
  option_map snd (List.find (fun kv => String.eqb (fst kv) k) d).

(** The keys of [l] in order, each at its first occurrence, skipping those in [seen]. *)
Fixpoint first_occ_from (seen l : list string) : list string :=
  match l with
  | [] => []
  | k :: l' =>
      if existsb (String.eqb k) seen then first_occ_from seen l'
      else k :: first_occ_from (k :: seen) l'
  end.

(** The decoder-block rules that store the array as it is: path suffix and
    destination name. *)
Definition decoder_norm_rules : list (string * string) :=
  [("attn/_key_norm", ".self_attn.k_norm.weight");
   ("attn/_query_norm", ".self_attn.q_norm.weight");
   ("post_attention_norm", ".post_attention_layernorm.weight");
   ("post_ffw_norm", ".post_feedforward_layernorm.weight");
   ("pre_attention_norm", ".input_layernorm.weight");
   ("pre_ffw_norm", ".pre_feedforward_layernorm.weight")].

(** * Facts about the string operations *)

Module StrFacts.

Lemma str_app_assoc (a b c : string) : (a ++ b) ++ c = a ++ (b ++ c).
Proof. induction a as [|x a IH]; simpl; [reflexivity | now rewrite IH]. Qed.

Lemma str_app_nil (a : string) : a ++ "" = a.
Proof. induction a as [|x a IH]; simpl; [reflexivity | now rewrite IH]. Qed.

Lemma str_app_length (a b : string) : String.length (a ++ b) = String.length a + String.length b.
Proof. induction a as [|x a IH]; simpl; auto. Qed.

Lemma rev_app (a b : string) : rev (a ++ b) = rev b ++ rev a.
Proof.
  induction a as [|x a IH]; simpl.
  - now rewrite str_app_nil.
  - now rewrite IH, str_app_assoc.
Qed.

Lemma prefix_app (p s : string) : String.prefix p (p ++ s) = true.
Proof.
  induction p as [|x p IH]; simpl; [destruct s; reflexivity|].
  destruct (ascii_dec x x); [exact IH | congruence].
Qed.

Lemma prefix_app_r (a s t : string) :
  String.prefix a s = true -> String.prefix a (s ++ t) = true.
Proof.
  revert s; induction a as [|x a IH]; intros s H; [destruct s, t; reflexivity|].
  destruct s as [|y s]; simpl in H |- *; [discriminate|].
  destruct (ascii_dec x y); [now apply IH | discriminate].
Qed.

(** Two strings neither of which is a prefix of the other differ inside
    their common length, so no extension of one has the other as prefix. *)
Lemma prefix_mismatch (a b s : string) :
  String.prefix a s = true -> String.prefix b a = false ->
  String.prefix a b = false -> String.prefix b s = false.
Proof.
  revert b s; induction a as [|x a IH]; intros b s Has Hba Hab.
  - destruct b; simpl in Hab; discriminate.
  - destruct s as [|y s]; simpl in Has; [discriminate|].
    destruct (ascii_dec x y) as [<-|]; [|discriminate].
    destruct b as [|z b]; simpl in Hba; [discriminate|].
    simpl in Hab |- *.
    destruct (ascii_dec z x) as [<-|Hzx].
    + destruct (ascii_dec z z); [|congruence]. now apply IH.
    + reflexivity.
Qed.

Lemma prefix_eqb_false (p s t : string) :
  String.prefix p s = true -> String.prefix p t = false -> String.eqb s t = false.
Proof. intros H1 H2. destruct (String.eqb_spec s t); congruence. Qed.

Lemma startswith_app (p s : string) : startswith (p ++ s) p = true.
Proof. apply prefix_app. Qed.

Lemma startswith_excl (s a b : string) :
  startswith s a = true -> String.prefix b a = false ->
  String.prefix a b = false -> startswith s b = false.
Proof. apply prefix_mismatch. Qed.

Lemma endswith_app_true (p s x : string) :
  endswith s x = true -> endswith (p ++ s) x = true.
Proof. unfold endswith. rewrite rev_app. apply prefix_app_r. Qed.

Lemma endswith_app_false (p s x : string) :
  endswith s x = false -> String.prefix (rev s) (rev x) = false ->
  endswith (p ++ s) x = false.
Proof.
  unfold endswith. rewrite rev_app. intros H1 H2.
  eapply prefix_mismatch; [apply prefix_app | exact H1 | exact H2].
Qed.

Lemma endswith_excl (s a b : string) :
  endswith s a = true -> String.prefix (rev b) (rev a) = false ->
  String.prefix (rev a) (rev b) = false -> endswith s b = false.
Proof. apply prefix_mismatch. Qed.

Lemma endswith_app (p s : string) : endswith (p ++ s) s = true.
Proof.
  apply endswith_app_true. unfold endswith.
  pose proof (prefix_app (rev s) "") as H. now rewrite str_app_nil in H.
Qed.

Lemma find_from_sep (idx r : string) (c : ascii) (i : nat) :
  contains idx (String c "") = false ->
  find_from (idx ++ String c r) (String c "") i = Z.of_nat (i + String.length idx).
Proof.
  revert i; induction idx as [|d idx IH]; intros i H;
    cbn [find_from contains String.prefix String.append String.length] in *.
  - rewrite Nat.add_0_r. destruct (ascii_dec c c); [destruct r; reflexivity | congruence].
  - apply orb_false_iff in H as [H1 H2].
    destruct (ascii_dec c d) as [e|ne]; [destruct idx; discriminate|].
    rewrite (IH (S i) H2). f_equal. lia.
Qed.

Lemma find_sep (idx r : string) (c : ascii) :
  contains idx (String c "") = false ->
  find (idx ++ String c r) (String c "") = Z.of_nat (String.length idx).
Proof. intro H. unfold find. now rewrite find_from_sep. Qed.

Lemma substring_app_l (a b : string) : substring 0 (String.length a) (a ++ b) = a.
Proof.
  induction a as [|x a IH]; simpl; [destruct b; reflexivity | now rewrite IH].
Qed.

Lemma substring_all (s : string) : substring 0 (String.length s) s = s.
Proof. pose proof (substring_app_l s "") as H. now rewrite str_app_nil in H. Qed.

Lemma substring_app_r (a b : string) :
  substring (String.length a) (String.length (a ++ b) - String.length a) (a ++ b) = b.
Proof.
  induction a as [|x a IH]; simpl.
  - rewrite Nat.sub_0_r. apply substring_all.
  - exact IH.
Qed.

Lemma norm_index_nat (s : string) (n : nat) : norm_index s (Z.of_nat n) = n.
Proof.
  unfold norm_index. destruct (Z.ltb_spec (Z.of_nat n) 0); [lia|]. apply Nat2Z.id.
Qed.

Lemma slice_from_app (a b : string) :
  slice_from (a ++ b) (Z.of_nat (String.length a)) = b.
Proof. unfold slice_from. rewrite norm_index_nat. apply substring_app_r. Qed.

Lemma slice_to_app (a b : string) :
  slice_to (a ++ b) (Z.of_nat (String.length a)) = a.
Proof. unfold slice_to. rewrite norm_index_nat. apply substring_app_l. Qed.

End StrFacts.

(** * Facts about the array operations and the rule tables *)

Module RuleFacts.

Import StrFacts.

(** numpy failures are shape errors, never one of the script's own. *)
Lemma transpose_err axes a e : transpose axes a = Err e -> e = ShapeError.
Proof. unfold transpose. destruct is_perm; congruence. Qed.

Lemma transpose_all_err a e : transpose_all a = Err e -> e = ShapeError.
Proof. apply transpose_err. Qed.

Lemma reshape_err sh a e : reshape sh a = Err e -> e = ShapeError.
Proof.
  unfold reshape.
  repeat match goal with |- context [if ?b then _ else _] => destruct b end;
    congruence.
Qed.

Lemma unpack2_err a e : unpack2 a = Err e -> e = ShapeError.
Proof.
  unfold unpack2. destruct (shape a) as [|[|[|[|n]]] sh]; congruence.
Qed.

Lemma map_fst_combine {A B} (xs : list A) (ys : list B) :
  List.length xs = List.length ys -> map fst (combine xs ys) = xs.
Proof.
  revert ys; induction xs as [|x xs IH]; intros [|y ys] H; simpl in *;
    try discriminate; auto.
  f_equal. apply IH. lia.
Qed.

Lemma check_and_zip_ok path ps ws l :
  _check_and_zip path ps ws = Ok l -> map fst l = ps /\ List.length l = List.length ps.
Proof.
  unfold _check_and_zip. destruct (Nat.eqb_spec (List.length ps) (List.length ws)) as [E|E];
    simpl; intro H; inversion H; subst.
  split; [now apply map_fst_combine|].
  rewrite length_combine. lia.
Qed.

Lemma check_and_zip_err path ps ws e :
  List.length ps = List.length ws -> _check_and_zip path ps ws <> Err e.
Proof.
  unfold _check_and_zip. intro E. rewrite E, Nat.eqb_refl. discriminate.
Qed.

(** Case analysis on a hypothesis [H : <rule table> = r]: every [if], every
    [let*] and every pair pattern of the rule table is split. *)
Ltac split_rule H :=
  repeat match type of H with
  | (if ?b then _ else _) = _ => let Eb := fresh "Eb" in destruct b eqn:Eb
  | bind ?m _ = _ => let Em := fresh "Em" in destruct m eqn:Em; cbn [bind] in H
  | (let (_, _) := ?p in _) = _ => destruct p
  end.

Lemma unpack2_two a sh : shape a = 2 :: sh -> unpack2 a = Ok (index0 a 0, index0 a 1).
Proof. unfold unpack2. intros ->. reflexivity. Qed.

Lemma index0_shape a n sh i : shape a = n :: sh -> shape (index0 a i) = sh.
Proof. intro H. unfold index0. simpl. now rewrite H. Qed.

Lemma reshape_nat (ns : list nat) a :
  size ns = size (shape a) ->
  reshape (map Z.of_nat ns) a = Ok (mk_nd (dtype_of a) ns (data a)).
Proof.
  intro Hs. unfold reshape. revert Hs.
  assert (E1 : existsb (fun d => (d <? -1)%Z) (map Z.of_nat ns) = false).
  { clear. induction ns as [|n ns IH]; simpl; [reflexivity|].
    apply orb_false_iff. split; [apply Z.ltb_ge; lia | exact IH]. }
  assert (E2 : filter (fun d => Z.eqb d (-1)) (map Z.of_nat ns) = []).
  { clear. induction ns as [|n ns IH]; simpl; [reflexivity|].
    destruct (Z.eqb_spec (Z.of_nat n) (-1)); [lia | exact IH]. }
  assert (E3 : map Z.to_nat (filter (fun d => negb (Z.eqb d (-1))) (map Z.of_nat ns)) = ns).
  { clear. induction ns as [|n ns IH]; simpl; [reflexivity|].
    destruct (Z.eqb_spec (Z.of_nat n) (-1)); [lia|]. simpl. now rewrite Nat2Z.id, IH. }
  assert (E4 : map Z.to_nat (map Z.of_nat ns) = ns).
  { rewrite map_map. erewrite map_ext; [apply map_id|]. intro. apply Nat2Z.id. }
  intro Hs. rewrite E1, E2, E3, E4. cbn [List.length]. rewrite Hs, Nat.eqb_refl. reflexivity.
Qed.

Lemma transpose_021 a x y z :
  shape a = [x; y; z] ->
  exists t, transpose [0; 2; 1] a = Ok t /\ shape t = [x; z; y].
Proof.
  intro H. unfold transpose. rewrite H. simpl. eexists; split; reflexivity.
Qed.

(** A path under [_TRANSFORMER_DECODER_BLOCK] passes the first three tests
    of [_convert_transformer_weights] and reaches the decoder-block branch. *)
Lemma decoder_dispatch r :
  String.eqb (_TRANSFORMER_DECODER_BLOCK ++ r) _TRANSFORMER_EMBEDDER = false /\
  startswith (_TRANSFORMER_DECODER_BLOCK ++ r) (_TRANSFORMER_EMBEDDER ++ "/mm") = false /\
  String.eqb (_TRANSFORMER_DECODER_BLOCK ++ r) _TRANSFORMER_FINAL_NORM = false /\
  startswith (_TRANSFORMER_DECODER_BLOCK ++ r) _TRANSFORMER_DECODER_BLOCK = true /\
  slice_from (_TRANSFORMER_DECODER_BLOCK ++ r) (Z.of_nat _TRANSFORMER_DECODER_BLOCK_LEN) = r.
Proof.
  pose proof (prefix_app _TRANSFORMER_DECODER_BLOCK r) as P.
  split; [|split; [|split; [|split]]].
  - apply (prefix_eqb_false _ _ _ P). reflexivity.
  - apply (startswith_excl _ _ _ P); reflexivity.
  - apply (prefix_eqb_false _ _ _ P). reflexivity.
  - exact P.
  - apply slice_from_app.
Qed.

Lemma dict_set_in {V} (d : list (string * V)) k v k' t :
  In (k', t) (dict_set d k v) -> (k' = k /\ t = v) \/ In (k', t) d.
Proof.
  induction d as [|[k0 v0] d IH]; simpl.
  - intros [H|[]]. inversion H. auto.
  - destruct (String.eqb k0 k).
    + intros [H|H]; [inversion H; auto | auto].
    + intros [H|H]; [auto|]. destruct (IH H); auto.
Qed.

Lemma update_all_in cast target em hf k t :
  In (k, t) (update_all cast target em hf) ->
  In (k, t) hf \/ exists w, In (k, w) em /\ t = astype cast target (astype cast float32 w).
Proof.
  unfold update_all. revert hf. induction em as [|[k0 w0] em IH]; intros hf H; simpl in *; [auto|].
  destruct (IH _ H) as [H1|(w & Hw & ->)].
  - apply dict_set_in in H1 as [[-> ->]|H1]; [|auto].
    right. exists w0. auto.
  - right. exists w. auto.
Qed.

Lemma update_pairs_eq cast target hf pws :
  update_pairs cast target hf pws =
  if no_scalars pws then Ok (update_all cast target pws hf) else Err FromNumpyTypeError.
Proof.
  unfold no_scalars, update_all. revert hf.
  induction pws as [|[k w] pws IH]; intro hf; [reflexivity|].
  cbn [update_pairs forallb fst snd fold_left]. unfold update_tree.
  change (is_scalar (astype cast float32 w)) with (is_scalar w).
  destruct (is_scalar w); simpl; [reflexivity|]. apply IH.
Qed.

Lemma convert_loop_emitted cast cfg target ckpt hf hf' :
  convert_loop cast cfg target hf ckpt = Ok hf' ->
  exists em, convert_emitted cfg ckpt = Ok em /\ no_scalars em = true /\
    hf' = update_all cast target em hf.
Proof.
  revert hf. induction ckpt as [|l ckpt IH]; intros hf H; simpl in *.
  - injection H as <-. exists []. auto.
  - destruct (convert_leaf cfg l) as [pws|e]; simpl in *; [|discriminate].
    rewrite update_pairs_eq in H. destruct (no_scalars pws) eqn:N; simpl in H; [|discriminate].
    destruct (IH _ H) as (em & Hem & Hns & ->). rewrite Hem. simpl.
    exists (pws ++ em)%list. split; [reflexivity|]. split.
    + unfold no_scalars in *. now rewrite forallb_app, N, Hns.
    + unfold update_all. now rewrite fold_left_app.
Qed.

Lemma convert_loop_of_emitted cast cfg target ckpt hf em :
  convert_emitted cfg ckpt = Ok em -> no_scalars em = true ->
  convert_loop cast cfg target hf ckpt = Ok (update_all cast target em hf).
Proof.
  revert hf em. induction ckpt as [|l ckpt IH]; intros hf em H Hns; simpl in *.
  - now injection H as <-.
  - destruct (convert_leaf cfg l) as [pws|e]; simpl in *; [|discriminate].
    destruct (convert_emitted cfg ckpt) as [em'|e]; simpl in *; [|discriminate].
    injection H as <-. unfold no_scalars in Hns. rewrite forallb_app in Hns.
    apply andb_prop in Hns as [N Hns].
    rewrite update_pairs_eq. unfold no_scalars. rewrite N. simpl.
    rewrite (IH _ em' eq_refl Hns). unfold update_all. now rewrite fold_left_app.
Qed.

Lemma convert_loop_emitted_eq cast cfg target ckpt hf em :
  convert_emitted cfg ckpt = Ok em ->
  convert_loop cast cfg target hf ckpt =
  if no_scalars em then Ok (update_all cast target em hf) else Err FromNumpyTypeError.
Proof.
  unfold no_scalars. revert hf em. induction ckpt as [|l ckpt IH]; intros hf em H; simpl in *.
  - now injection H as <-.
  - destruct (convert_leaf cfg l) as [pws|e]; simpl in *; [|discriminate].
    destruct (convert_emitted cfg ckpt) as [em'|e]; simpl in *; [|discriminate].
    injection H as <-. rewrite update_pairs_eq. unfold no_scalars. rewrite forallb_app.
    destruct (forallb _ pws); simpl; [|reflexivity].
    rewrite (IH _ em' eq_refl). unfold update_all. now rewrite fold_left_app.
Qed.

Lemma emitted_in cfg ckpt em kw :
  convert_emitted cfg ckpt = Ok em -> In kw em ->
  exists l pws, In l ckpt /\ convert_leaf cfg l = Ok pws /\ In kw pws.
Proof.
  revert em. induction ckpt as [|l ckpt IH]; intros em H Hin; simpl in H.
  - injection H as <-. destruct Hin.
  - destruct (convert_leaf cfg l) as [pws|e] eqn:El; simpl in H; [|discriminate].
    destruct (convert_emitted cfg ckpt) as [em'|e]; simpl in H; [|discriminate].
    injection H as <-. apply in_app_or in Hin as [Hin|Hin].
    + exists l, pws. simpl. auto.
    + destruct (IH em' eq_refl Hin) as (l' & pws' & H1 & H2 & H3).
      exists l', pws'. simpl. auto.
Qed.

(** A hypothesis [op ... = Err e] with [e] not a shape error is absurd. *)
Ltac np_err_contra :=
  match goal with
  | E : _ = Err _ |- _ =>
      first [ apply transpose_err in E | apply transpose_all_err in E
            | apply reshape_err in E | apply unpack2_err in E ]; discriminate
  end.

End RuleFacts.

(** * Facts about the leaves of a Gemma 3 checkpoint *)

Module CanonFacts.

Import StrFacts RuleFacts.

Lemma str_app_inj_l (a b c : string) : a ++ b = a ++ c -> b = c.
Proof. induction a as [|x a IH]; simpl; [auto | intro H; injection H; auto]. Qed.

Lemma endswith_cut (p s x : string) :
  String.prefix (rev s) (rev x) = false -> endswith (p ++ s) x = endswith s x.
Proof.
  intro H. destruct (endswith s x) eqn:E.
  - now apply endswith_app_true.
  - now apply endswith_app_false.
Qed.

Lemma split_index_app (P idx s : string) (c : ascii) :
  contains idx (String c "") = false ->
  split_index P (P ++ idx ++ String c s) c = (idx, String c s).
Proof.
  intro H. unfold split_index. rewrite slice_from_app, (find_sep _ _ _ H).
  now rewrite slice_to_app, slice_from_app.
Qed.

Lemma text_part_keys_dot p s : In s (text_part_keys p) -> exists s', s = String "." s'.
Proof.
  destruct p; simpl; intro H; repeat (destruct H as [<-|H]; [eexists; reflexivity|]); destruct H.
Qed.

Lemma vision_part_key_dot v : exists s', vision_part_key v = String "." s'.
Proof. destruct v as [[] []|[] []|[] []]; eexists; reflexivity. Qed.

Lemma decode_text_suffix_ok p s : In s (text_part_keys p) -> decode_text_suffix s = Some p.
Proof.
  destruct p; simpl; intro H; repeat (destruct H as [<-|H]; [reflexivity|]); destruct H.
Qed.

Lemma decode_vision_suffix_ok v : decode_vision_suffix (vision_part_key v) = Some v.
Proof. destruct v as [[] []|[] []|[] []]; reflexivity. Qed.

Lemma canon_ok_idx idx : negb (contains idx "/") && negb (contains idx ".") = true ->
  contains idx "/" = false /\ contains idx "." = false.
Proof. intro H. apply andb_true_iff in H as [H1 H2]. now apply negb_true_iff in H1, H2. Qed.

Lemma decode_keys c k :
  canon_ok c = true -> In k (text_keys c ++ vision_keys c) -> decode_key k = Some c.
Proof.
  intros Hok Hk. destruct c; cbn [text_keys vision_keys app] in Hk;
    try solve [repeat (destruct Hk as [<-|Hk]; [reflexivity|]); destruct Hk];
    try (destruct bias; destruct Hk as [<-|[]]; reflexivity).
  - apply canon_ok_idx in Hok as [_ Hd].
    rewrite app_nil_r in Hk. apply in_map_iff in Hk as (s & <- & Hs).
    destruct (text_part_keys_dot _ _ Hs) as (s' & ->).
    unfold decode_key. rewrite startswith_app, (split_index_app _ _ _ _ Hd). cbv beta iota.
    now rewrite (decode_text_suffix_ok _ _ Hs).
  - apply canon_ok_idx in Hok as [_ Hd].
    destruct Hk as [<-|[]].
    destruct (vision_part_key_dot v) as (s' & Hs').
    pose proof (startswith_app vision_layers_prefix (idx ++ vision_part_key v)) as P.
    unfold decode_key. rewrite (startswith_excl _ _ text_layers_prefix P eq_refl eq_refl), P.
    rewrite Hs', (split_index_app _ _ _ _ Hd). cbv beta iota.
    now rewrite <- Hs', decode_vision_suffix_ok.
Qed.

Ltac run_rule H :=
  repeat (match type of H with
    | context [if ?b then _ else _] =>
        let Eb := fresh "Eb" in destruct b eqn:Eb; try (vm_compute in Eb; discriminate Eb)
    | bind ?m _ = _ => let Em := fresh "Em" in destruct m eqn:Em
    | (let (_, _) := ?p in _) = _ => destruct p
    end; cbn [bind] in H; try discriminate H).

Lemma text_leaf_keys tc c w l :
  canon_ok c = true -> is_vision_leaf c = false ->
  _convert_transformer_weights tc (canon_paths c) w = Ok l -> map fst l = text_keys c.
Proof.
  intros Hok Hv H. destruct c; try discriminate Hv.
  all: try (unfold canon_paths, _convert_transformer_weights in H; cbv beta iota zeta in H;
            run_rule H;
            first [ injection H as <-; reflexivity
                  | apply check_and_zip_ok in H as [-> _]; reflexivity ]).
  apply canon_ok_idx in Hok as [Hs _].
  destruct p; cbn [canon_paths text_part_leaf fst snd] in H;
  match type of H with
  | context [_TRANSFORMER_DECODER_BLOCK ++ ?r] =>
      destruct (decoder_dispatch r) as (E1 & E2 & E3 & E4 & E5)
  end;
  unfold _convert_transformer_weights in H; cbv beta iota zeta in H;
  rewrite E1, E2, E3, E4, E5, (find_sep _ _ _ Hs), slice_to_app in H;
  rewrite <- (str_app_assoc _TRANSFORMER_DECODER_BLOCK idx) in H;
  rewrite !endswith_cut in H by reflexivity;
  run_rule H;
  apply check_and_zip_ok in H as [-> _]; cbn [text_keys text_part_keys map];
  rewrite ?str_app_assoc; reflexivity.
Qed.

Lemma vision_leaf_keys vc c w kw :
  canon_ok c = true -> is_vision_leaf c = true ->
  _convert_siglip_weight vc (canon_paths c) w = Ok kw -> [fst kw] = vision_keys c.
Proof.
  intros Hok Hv H. destruct c; try discriminate Hv; try destruct bias.
  all: try (unfold canon_paths, _convert_siglip_weight in H; cbv beta iota zeta in H;
            run_rule H; injection H as <-; reflexivity).
  apply canon_ok_idx in Hok as [Hs _].
  destruct v as [[] []|[] []|[] []];
  cbn [canon_paths vision_part_leaf attn_suffix fst snd String.append] in H;
  match type of H with
  | context [_SIGLIP_TRANSFORMER_ENCODER_BLOCK ++ ?r] =>
      pose proof (prefix_app _SIGLIP_TRANSFORMER_ENCODER_BLOCK r) as P
  end;
  unfold _convert_siglip_weight in H; cbv beta iota zeta in H;
  rewrite (prefix_eqb_false _ _ _SIGLIP_BASE P eq_refl),
          (prefix_eqb_false _ _ _SIGLIP_EMBEDDING P eq_refl) in H;
  unfold startswith at 1 in H; rewrite P in H;
  unfold _SIGLIP_TRANSFORMER_ENCODER_BLOCK_LEN in H;
  rewrite slice_from_app, (find_sep _ _ _ Hs), slice_to_app, slice_from_app in H;
  rewrite <- (str_app_assoc _SIGLIP_TRANSFORMER_ENCODER_BLOCK idx) in H;
  rewrite ?endswith_cut in H by reflexivity;
  run_rule H; injection H as <-; cbn [vision_keys vision_part_key attn_name fst];
  rewrite ?str_app_assoc; reflexivity.
Qed.

Lemma siglip_sentinel c :
  startswith (fst (canon_paths c)) "SigLiPFromPatches_" = is_vision_leaf c.
Proof.
  destruct c; try reflexivity; cbn [canon_paths fst]; unfold startswith;
    apply prefix_app_r; reflexivity.
Qed.

Lemma text_keys_vision c : is_vision_leaf c = true -> text_keys c = [].
Proof. destruct c; simpl; congruence. Qed.

Lemma vision_keys_text c : is_vision_leaf c = false -> vision_keys c = [].
Proof. destruct c; simpl; congruence. Qed.

Lemma convert_leaf_keys cfg c w kws :
  canon_ok c = true -> convert_leaf cfg (canon_paths c, w) = Ok kws ->
  map fst kws = keys_cfg cfg c.
Proof.
  intros Hok H. unfold convert_leaf in H. rewrite siglip_sentinel in H.
  unfold keys_cfg. destruct (is_vision_leaf c) eqn:Hv.
  - rewrite (text_keys_vision _ Hv). destruct (vision_config cfg) as [vc|].
    + destruct (_convert_siglip_weight vc (canon_paths c) w) as [kw|e] eqn:E;
        cbn [bind] in H; [|discriminate H].
      injection H as <-. exact (vision_leaf_keys _ _ _ _ Hok Hv E).
    + now injection H as <-.
  - destruct (_convert_transformer_weights (text_config cfg) (canon_paths c) w) as [l|e] eqn:E;
      cbn [bind] in H; [|discriminate H].
    injection H as <-. rewrite map_map, <- (text_leaf_keys _ _ _ _ Hok Hv E).
    destruct (vision_config cfg).
    + rewrite (vision_keys_text _ Hv), app_nil_r. reflexivity.
    + rewrite map_map. reflexivity.
Qed.

Lemma emitted_keys cfg cws em :
  forallb (fun cw => canon_ok (fst cw)) cws = true ->
  convert_emitted cfg (canon_ckpt cws) = Ok em ->
  map fst em = flat_map (keys_cfg cfg) (map fst cws).
Proof.
  revert em; induction cws as [|[c w] cws IH]; intros em Hok H.
  - now injection H as <-.
  - change (canon_ckpt ((c, w) :: cws)) with ((canon_paths c, w) :: canon_ckpt cws) in H.
    cbn [convert_emitted] in H. cbn [forallb fst] in Hok. cbn [map fst flat_map].
    apply andb_true_iff in Hok as [Hc Hok].
    destruct (convert_leaf cfg (canon_paths c, w)) as [kws|e] eqn:E; cbn [bind] in H; [|discriminate H].
    destruct (convert_emitted cfg (canon_ckpt cws)) as [em'|e]; cbn [bind] in H; [|discriminate H].
    injection H as <-. rewrite map_app, (convert_leaf_keys _ _ _ _ Hc E), (IH em' Hok eq_refl).
    reflexivity.
Qed.

Lemma NoDup_flat_map_decode {A B} (f : A -> list B) (dec : B -> option A) (l : list A) :
  NoDup l -> (forall a, In a l -> NoDup (f a)) ->
  (forall a b, In a l -> In b (f a) -> dec b = Some a) -> NoDup (flat_map f l).
Proof.
  induction 1 as [|a l Hna Hnd IH]; simpl; intros Hf Hdec; [constructor|].
  apply NoDup_app.
  - apply Hf. now left.
  - apply IH; auto.
  - intros b Hb Hb'. apply in_flat_map in Hb' as (a' & Ha' & Hb').
    pose proof (Hdec a b (or_introl eq_refl) Hb) as D1.
    pose proof (Hdec a' b (or_intror Ha') Hb') as D2.
    rewrite D1 in D2. injection D2 as <-. contradiction.
Qed.

Lemma NoDup_map_prefix (P : string) (l : list string) :
  NoDup l -> NoDup (map (fun s => P ++ s) l).
Proof.
  induction 1 as [|x l Hx Hnd IH]; simpl; constructor; auto.
  intro Hin. apply in_map_iff in Hin as (y & E & Hy). apply str_app_inj_l in E. congruence.
Qed.

Lemma leaf_keys_nodup c : NoDup (text_keys c ++ vision_keys c).
Proof.
  destruct c; cbn [text_keys vision_keys app]; try destruct bias;
    try solve [repeat constructor; simpl; intuition discriminate].
  rewrite app_nil_r.
  replace (map (fun s => text_layers_prefix ++ idx ++ s) (text_part_keys p))
    with (map (fun s => (text_layers_prefix ++ idx) ++ s) (text_part_keys p))
    by (apply map_ext; intro; apply str_app_assoc).
  apply NoDup_map_prefix.
  destruct p; repeat constructor; simpl; intuition discriminate.
Qed.

Lemma text_keys_lm c :
  Forall (fun k => exists r, k = language_model_prefix ++ r) (text_keys c).
Proof.
  destruct c; cbn [text_keys]; repeat constructor; try (eexists; reflexivity).
  apply Forall_forall. intros k Hk. apply in_map_iff in Hk as (s & <- & _).
  exists ("model.layers." ++ idx ++ s). reflexivity.
Qed.

Lemma NoDup_strip (l : list string) :
  NoDup l -> Forall (fun k => exists r, k = language_model_prefix ++ r) l ->
  NoDup (map (fun k => slice_from k (Z.of_nat (String.length language_model_prefix))) l).
Proof.
  induction 1 as [|x l Hx Hnd IH]; intro Hf; cbn [map]; constructor.
  - inversion Hf as [|? ? Hx' Hl]; subst. destruct Hx' as (r & ->). rewrite slice_from_app.
    intro Hin. apply in_map_iff in Hin as (y & E & Hy).
    rewrite Forall_forall in Hl. destruct (Hl y Hy) as (r' & ->).
    rewrite slice_from_app in E. subst. contradiction.
  - inversion Hf; auto.
Qed.

Lemma flat_map_map_r {A B C} (f : A -> list B) (g : B -> C) (l : list A) :
  flat_map (fun a => map g (f a)) l = map g (flat_map f l).
Proof. induction l; simpl; [reflexivity|]. now rewrite map_app, IHl. Qed.

Lemma keys_cfg_nodup cfg cs :
  NoDup cs -> forallb canon_ok cs = true -> NoDup (flat_map (keys_cfg cfg) cs).
Proof.
  intros Hnd Hok. rewrite forallb_forall in Hok.
  unfold keys_cfg. destruct (vision_config cfg).
  - apply (NoDup_flat_map_decode _ decode_key); auto.
    + intros. apply leaf_keys_nodup.
    + intros a b Ha Hb. apply decode_keys; auto.
  - rewrite flat_map_map_r. apply NoDup_strip.
    + apply (NoDup_flat_map_decode _ decode_key); auto.
      * intros a _. exact (NoDup_app_remove_r _ _ (leaf_keys_nodup a)).
      * intros a b Ha Hb. apply decode_keys; auto. apply in_or_app. now left.
    + apply Forall_forall. intros k Hk. apply in_flat_map in Hk as (c & _ & Hk).
      exact (proj1 (Forall_forall _ _) (text_keys_lm c) k Hk).
Qed.

Lemma dict_set_fresh {V} (d : list (string * V)) k v :
  ~ In k (map fst d) -> dict_set d k v = (d ++ [(k, v)])%list.
Proof.
  induction d as [|[k' v'] d IH]; simpl; intro H; [reflexivity|].
  destruct (String.eqb_spec k' k) as [->|_]; [exfalso; auto|].
  rewrite IH; auto.
Qed.

Lemma update_all_fresh cast target em hf :
  NoDup (map fst em) -> (forall k, In k (map fst em) -> ~ In k (map fst hf)) ->
  update_all cast target em hf = (hf ++ stored cast target em)%list.
Proof.
  unfold update_all. revert hf.
  induction em as [|[k w] em IH]; intros hf Hnd Hfr; simpl in *.
  - now rewrite app_nil_r.
  - inversion Hnd as [|? ? Hk Hnd']; subst.
    rewrite dict_set_fresh by (apply Hfr; now left).
    rewrite IH; auto.
    + now rewrite <- app_assoc.
    + intros k' Hk'. rewrite map_app, in_app_iff. simpl. intros [H|[H|[]]].
      * apply (Hfr k'); auto.
      * subst. contradiction.
Qed.

End CanonFacts.


Import StrFacts RuleFacts CanonFacts.

Lemma lm_stripped_app r : lm_stripped (language_model_prefix ++ r).
Proof. exists r. split; [reflexivity | apply slice_from_app]. Qed.

Lemma Forall_map_fst {A B} (P : A -> Prop) (l : list (A * B)) :
  Forall P (map fst l) -> Forall (fun kw => P (fst kw)) l.
Proof. induction l; simpl; intro H; inversion H; constructor; auto. Qed.

(** C10: every destination key [_convert_transformer_weights] returns
    begins with ["language_model."], so slicing off
    [len("language_model.")] characters removes exactly that prefix. *)
Theorem text_keys_start_with_language_model cfg paths w l :
  _convert_transformer_weights cfg paths w = Ok l ->
  Forall (fun kw => lm_stripped (fst kw)) l.
Proof.
  destruct paths as [path prop]. intro H.
  unfold _convert_transformer_weights in H. split_rule H;
    try discriminate;
    match type of H with
    | Ok _ = Ok _ => injection H as <-; constructor
    | _ => apply check_and_zip_ok in H as [Hk _]; apply Forall_map_fst; rewrite Hk;
           repeat constructor; apply lm_stripped_app
    end.
Qed.

(** C7: [_convert_transformer_weights] always builds as many destination
    paths as arrays, so its length-mismatch error is never raised, and it
    returns at most two pairs. *)
Theorem text_paths_weights_same_length cfg paths w :
  (forall cpl cwl p, _convert_transformer_weights cfg paths w <> Err (LengthMismatch cpl cwl p)) /\
  (forall l, _convert_transformer_weights cfg paths w = Ok l -> List.length l <= 2).
Proof.
  destruct paths as [path prop]. split.
  - intros cpl cwl p H. unfold _convert_transformer_weights in H. split_rule H;
      try discriminate;
      match type of H with
      | Err _ = Err _ => injection H as ->; np_err_contra
      | _ => revert H; apply check_and_zip_err; reflexivity
      end.
  - intros l H. unfold _convert_transformer_weights in H. split_rule H;
      try discriminate;
      match type of H with
      | Ok _ = Ok _ => injection H as <-; simpl; lia
      | _ => apply check_and_zip_ok in H as [_ Hl]; rewrite Hl; simpl; lia
      end.
Qed.

(** C2: on a decoder-block path ending in ["attn/kv_einsum"] whose array
    has shape (2, num_key_value_heads, hidden_size, head_dim), the rule emits
    exactly the k_proj and v_proj weights, each slice transposed by (0,2,1)
    and reshaped to (num_key_value_heads * head_dim, hidden_size). *)
Theorem kv_einsum_split cfg r prop w :
  endswith (_TRANSFORMER_DECODER_BLOCK ++ r) "attn/kv_einsum" = true ->
  shape w = [2; num_key_value_heads cfg; hidden_size cfg; head_dim cfg] ->
  exists k v,
    (let* t := transpose [0; 2; 1] (index0 w 0) in
     reshape [Z.of_nat (num_key_value_heads cfg * head_dim cfg); Z.of_nat (hidden_size cfg)] t) = Ok k /\
    (let* t := transpose [0; 2; 1] (index0 w 1) in
     reshape [Z.of_nat (num_key_value_heads cfg * head_dim cfg); Z.of_nat (hidden_size cfg)] t) = Ok v /\
    shape k = [(num_key_value_heads cfg * head_dim cfg); hidden_size cfg] /\
    shape v = [(num_key_value_heads cfg * head_dim cfg); hidden_size cfg] /\
    _convert_transformer_weights cfg (_TRANSFORMER_DECODER_BLOCK ++ r, prop) w =
      Ok [(decoder_base_path r ++ ".self_attn.k_proj.weight", k);
          (decoder_base_path r ++ ".self_attn.v_proj.weight", v)].
Proof.
  intros Hend Hsh.
  destruct (decoder_dispatch r) as (E1 & E2 & E3 & E4 & E5).
  unfold _convert_transformer_weights. cbv beta iota zeta.
  rewrite E1, E2, E3, E4, E5.
  rewrite (endswith_excl _ _ "attn/attn_vec_einsum" Hend eq_refl eq_refl).
  rewrite (endswith_excl _ _ "attn/_key_norm" Hend eq_refl eq_refl).
  rewrite Hend. cbv beta iota.
  rewrite (unpack2_two _ _ Hsh). cbn [bind].
  destruct (transpose_021 (index0 w 0) _ _ _ (index0_shape _ _ _ 0 Hsh)) as (tk & Tk & Sk).
  destruct (transpose_021 (index0 w 1) _ _ _ (index0_shape _ _ _ 1 Hsh)) as (tv & Tv & Sv).
  assert (Rk : reshape [Z.of_nat (num_key_value_heads cfg * head_dim cfg); Z.of_nat (hidden_size cfg)] tk =
               Ok (mk_nd (dtype_of tk) [(num_key_value_heads cfg * head_dim cfg); hidden_size cfg] (data tk))).
  { apply (reshape_nat [(num_key_value_heads cfg * head_dim cfg); hidden_size cfg]). rewrite Sk. simpl. lia. }
  assert (Rv : reshape [Z.of_nat (num_key_value_heads cfg * head_dim cfg); Z.of_nat (hidden_size cfg)] tv =
               Ok (mk_nd (dtype_of tv) [(num_key_value_heads cfg * head_dim cfg); hidden_size cfg] (data tv))).
  { apply (reshape_nat [(num_key_value_heads cfg * head_dim cfg); hidden_size cfg]). rewrite Sv. simpl. lia. }
  rewrite Tk, Tv. cbn [bind]. rewrite Rk, Rv.
  eexists _, _. split; [reflexivity|]. split; [reflexivity|].
  split; [reflexivity|]. split; [reflexivity|]. reflexivity.
Qed.

(** C3: on a decoder-block path ending in ["mlp/gating_einsum"] whose array
    has shape (2, H, I), the rule emits exactly gate_proj.weight and
    up_proj.weight, the two slices along axis 0, of shape (H, I), untouched. *)
Theorem gating_einsum_split cfg r prop w h i :
  endswith (_TRANSFORMER_DECODER_BLOCK ++ r) "mlp/gating_einsum" = true ->
  shape w = [2; h; i] ->
  _convert_transformer_weights cfg (_TRANSFORMER_DECODER_BLOCK ++ r, prop) w =
    Ok [(decoder_base_path r ++ ".mlp.gate_proj.weight", index0 w 0);
        (decoder_base_path r ++ ".mlp.up_proj.weight", index0 w 1)] /\
  shape (index0 w 0) = [h; i] /\ shape (index0 w 1) = [h; i] /\
  data (index0 w 0) = firstn (h * i) (data w) /\
  data (index0 w 1) = firstn (h * i) (skipn (h * i) (data w)).
Proof.
  intros Hend Hsh.
  destruct (decoder_dispatch r) as (E1 & E2 & E3 & E4 & E5).
  unfold _convert_transformer_weights. cbv beta iota zeta.
  rewrite E1, E2, E3, E4, E5.
  rewrite (endswith_excl _ _ "attn/attn_vec_einsum" Hend eq_refl eq_refl).
  rewrite (endswith_excl _ _ "attn/_key_norm" Hend eq_refl eq_refl).
  rewrite (endswith_excl _ _ "attn/kv_einsum" Hend eq_refl eq_refl).
  rewrite (endswith_excl _ _ "attn/q_einsum" Hend eq_refl eq_refl).
  rewrite (endswith_excl _ _ "attn/_query_norm" Hend eq_refl eq_refl).
  rewrite Hend. cbv beta iota.
  rewrite (unpack2_two _ _ Hsh). cbn [bind].
  unfold index0. rewrite Hsh. simpl.
  rewrite !Nat.mul_1_r, Nat.add_0_r. repeat split.
Qed.

(** C4: the embedder leaf ["input_embedding"] is emitted twice, as the
    token-embedding weight and as the lm_head weight, both the input array. *)
Theorem input_embedding_duplicated cfg w :
  _convert_transformer_weights cfg (_TRANSFORMER_EMBEDDER, "input_embedding") w =
    Ok [("language_model.model.embed_tokens.weight", w);
        ("language_model.lm_head.weight", w)].
Proof. reflexivity. Qed.

Lemma siglip_attn_dispatch cfg idx rest prop w :
  contains idx "/" = false ->
  _convert_siglip_weight cfg
    (_SIGLIP_TRANSFORMER_ENCODER_BLOCK ++ idx ++ "/MultiHeadDotProductAttention_0" ++ rest, prop) w =
  (let path := _SIGLIP_TRANSFORMER_ENCODER_BLOCK ++ idx ++ "/MultiHeadDotProductAttention_0" ++ rest in
   let encoder_block_path := "/MultiHeadDotProductAttention_0" ++ rest in
   let normalized_path := "vision_model.vision_model.encoder.layers." ++ idx in
   let hs := Z.of_nat (vision_hidden_size cfg) in
   let* normalized_path :=
     if endswith encoder_block_path "/key" then Ok (normalized_path ++ ".self_attn.k_proj")
     else if endswith encoder_block_path "/out" then Ok (normalized_path ++ ".self_attn.out_proj")
     else if endswith encoder_block_path "/query" then Ok (normalized_path ++ ".self_attn.q_proj")
     else if endswith encoder_block_path "/value" then Ok (normalized_path ++ ".self_attn.v_proj")
     else Err (UnexpectedPath path) in
   if String.eqb prop "bias" then
     let* w1 := reshape [(-1)%Z; hs] w in
     let* w2 := reshape [(-1)%Z] w1 in
     Ok (normalized_path ++ ".bias", w2)
   else if String.eqb prop "kernel" then
     let* w1 := reshape [(-1)%Z; hs] w in
     let* w2 := transpose_all w1 in
     Ok (normalized_path ++ ".weight", w2)
   else Err (UnexpectedMember prop path)).
Proof.
  intro Hidx.
  set (rest' := "MultiHeadDotProductAttention_0" ++ rest).
  change ("/MultiHeadDotProductAttention_0" ++ rest) with (String "/" rest').
  pose proof (prefix_app _SIGLIP_TRANSFORMER_ENCODER_BLOCK (idx ++ String "/" rest')) as P.
  unfold _convert_siglip_weight. cbv beta iota zeta.
  rewrite (prefix_eqb_false _ _ _SIGLIP_BASE P eq_refl).
  rewrite (prefix_eqb_false _ _ _SIGLIP_EMBEDDING P eq_refl).
  unfold startswith at 1. rewrite P.
  unfold _SIGLIP_TRANSFORMER_ENCODER_BLOCK_LEN. rewrite slice_from_app.
  rewrite (find_sep _ _ _ Hidx), slice_to_app, slice_from_app.
  assert (PM : startswith (String "/" rest') "/MultiHeadDotProductAttention_0" = true)
    by exact (startswith_app "/MultiHeadDotProductAttention_0" rest).
  rewrite (startswith_excl _ _ "/LayerNorm" PM eq_refl eq_refl).
  rewrite (startswith_excl _ _ "/MlpBlock_0" PM eq_refl eq_refl).
  rewrite PM. reflexivity.
Qed.

(** C8: under ["MultiHeadDotProductAttention_0"] of a SigLIP encoder block,
    a suffix selecting the key, out, query or value projection gives one
    pair: a ["bias"] reshaped to (-1, hidden_size) then flattened, a
    ["kernel"] reshaped to (-1, hidden_size) then transposed, any other
    property an error; a path with none of these suffixes is an error. *)
Theorem siglip_attention_transforms cfg idx rest prop w :
  contains idx "/" = false ->
  (forall p, endswith ("/MultiHeadDotProductAttention_0" ++ rest) (attn_suffix p) = true ->
     _convert_siglip_weight cfg
       (_SIGLIP_TRANSFORMER_ENCODER_BLOCK ++ idx ++ "/MultiHeadDotProductAttention_0" ++ rest, prop) w =
     if String.eqb prop "bias" then
       let* w1 := reshape [(-1)%Z; Z.of_nat (vision_hidden_size cfg)] w in
       let* w2 := reshape [(-1)%Z] w1 in
       Ok ((("vision_model.vision_model.encoder.layers." ++ idx) ++ attn_name p) ++ ".bias", w2)
     else if String.eqb prop "kernel" then
       let* w1 := reshape [(-1)%Z; Z.of_nat (vision_hidden_size cfg)] w in
       let* w2 := transpose_all w1 in
       Ok ((("vision_model.vision_model.encoder.layers." ++ idx) ++ attn_name p) ++ ".weight", w2)
     else Err (UnexpectedMember prop
            (_SIGLIP_TRANSFORMER_ENCODER_BLOCK ++ idx ++ "/MultiHeadDotProductAttention_0" ++ rest))) /\
  ((forall p, endswith ("/MultiHeadDotProductAttention_0" ++ rest) (attn_suffix p) = false) ->
     _convert_siglip_weight cfg
       (_SIGLIP_TRANSFORMER_ENCODER_BLOCK ++ idx ++ "/MultiHeadDotProductAttention_0" ++ rest, prop) w =
     Err (UnexpectedPath
            (_SIGLIP_TRANSFORMER_ENCODER_BLOCK ++ idx ++ "/MultiHeadDotProductAttention_0" ++ rest))).
Proof.
  intro Hidx. rewrite (siglip_attn_dispatch cfg idx rest prop w Hidx). cbv beta zeta.
  split.
  - intros p Hp. destruct p; cbn [attn_suffix] in Hp; rewrite Hp;
      try rewrite (endswith_excl _ _ "/key" Hp eq_refl eq_refl);
      try rewrite (endswith_excl _ _ "/out" Hp eq_refl eq_refl);
      try rewrite (endswith_excl _ _ "/query" Hp eq_refl eq_refl);
      reflexivity.
  - intro Hn.
    pose proof (Hn AttnKey) as K. pose proof (Hn AttnOut) as O.
    pose proof (Hn AttnQuery) as Q. pose proof (Hn AttnValue) as V.
    cbn [attn_suffix] in K, O, Q, V. rewrite K, O, Q, V. reflexivity.
Qed.

Lemma text_rule_error_status cfg path prop w :
  match _convert_transformer_weights cfg (path, prop) w with
  | Err e => rule_error e
  | Ok _ => false
  end = negb (text_rule_matches path prop).
Proof.
  unfold _convert_transformer_weights. cbv beta iota zeta.
  repeat match goal with
  | |- context [if ?b then _ else _] => let E := fresh "Eb" in destruct b eqn:E
  | |- context [bind ?m _] => let E := fresh "Em" in destruct m eqn:E; cbn [bind]
  | |- context [let (_, _) := ?p in _] => destruct p
  end;
  repeat match goal with
  | E : _ = Err ?e |- _ =>
      first [ apply transpose_err in E | apply transpose_all_err in E
            | apply reshape_err in E | apply unpack2_err in E ]; subst e
  end;
  repeat match goal with
  | E : String.eqb path _ = true |- _ => apply String.eqb_eq in E; subst path
  end;
  unfold text_rule_matches; cbn [existsb decoder_block_suffixes];
  repeat match goal with
  | E : ?b = true |- context [?b] => rewrite E
  | E : ?b = false |- context [?b] => rewrite E
  end;
  try match goal with
  | E : startswith path (_TRANSFORMER_EMBEDDER ++ "/mm") = true |- _ =>
      rewrite (prefix_eqb_false _ _ _TRANSFORMER_FINAL_NORM E eq_refl),
              (startswith_excl _ _ _TRANSFORMER_DECODER_BLOCK E eq_refl eq_refl)
  end;
  reflexivity.
Qed.

(** C6 (amended): [_convert_transformer_weights] raises one of the
    script's own errors (unexpected member, sub-path or path) exactly when
    the path and property match no rule shape of the table; a matching rule
    can still fail with a numpy shape error. The multimodal embedder leaves
    give no pair: the two properties, and the sub-paths starting with
    ["transformer/embedder/mm"] that end in ["/mm_input_projection"] or
    ["/mm_soft_embedding_norm"]; an unknown decoder-block suffix is an
    error. *)
Theorem text_rule_errors_iff cfg path prop w :
  ((exists e, _convert_transformer_weights cfg (path, prop) w = Err e /\ rule_error e = true) <->
   text_rule_matches path prop = false) /\
  _convert_transformer_weights cfg (_TRANSFORMER_EMBEDDER, "mm_input_embedding_extra") w = Ok [] /\
  _convert_transformer_weights cfg (_TRANSFORMER_EMBEDDER, "mm_output_embedding") w = Ok [] /\
  (startswith path (_TRANSFORMER_EMBEDDER ++ "/mm") = true ->
   (endswith path "/mm_input_projection" || endswith path "/mm_soft_embedding_norm") = true ->
   _convert_transformer_weights cfg (path, prop) w = Ok []) /\
  _convert_transformer_weights cfg ("transformer/layer_0/mlp/unknown_leaf", prop) w =
    Err (UnexpectedPath "transformer/layer_0/mlp/unknown_leaf").
Proof.
  split; [|split; [reflexivity|split; [reflexivity|split; [|reflexivity]]]].
  - pose proof (text_rule_error_status cfg path prop w) as S.
    split.
    + intros (e & He & Hr). rewrite He, Hr in S.
      destruct (text_rule_matches path prop); [discriminate | reflexivity].
    + intro Hm. rewrite Hm in S. cbn [negb] in S.
      destruct (_convert_transformer_weights cfg (path, prop) w) as [l|e];
        [discriminate | now exists e].
  - intros Hs He. unfold _convert_transformer_weights. cbv beta iota zeta.
    rewrite (prefix_eqb_false _ _ _TRANSFORMER_EMBEDDER Hs eq_refl), Hs.
    apply orb_true_iff in He as [He|He]; rewrite He; [reflexivity|].
    destruct (endswith path "/mm_input_projection"); reflexivity.
Qed.

(** C9: every array [convert] stores is the emitted array cast to float32
    and then to the target dtype; its dtype is the target and each of its
    values is a value rounded to the target precision. *)
Theorem stored_tensors_cast_via_float32 cast cfg target ckpt hf :
  convert cast cfg target ckpt = Ok hf ->
  forall k t, In (k, t) hf ->
  exists em w, convert_emitted cfg ckpt = Ok em /\ In (k, w) em /\
    t = astype cast target (astype cast float32 w) /\
    dtype_of t = target /\
    Forall (fun x => exists y, x = cast target y) (data t).
Proof.
  intros H k t Hin. unfold convert in H.
  destruct (convert_loop_emitted _ _ _ _ _ _ H) as (em & Hem & _ & ->).
  apply update_all_in in Hin as [[]|(w & Hw & ->)].
  exists em, w. repeat split; auto.
  simpl. apply Forall_forall. intros x Hx. apply in_map_iff in Hx as (y & <- & _).
  now exists y.
Qed.

Lemma text_key_form_model x : text_key_form (language_model_prefix ++ "model." ++ x).
Proof. exists ("model." ++ x). split; [reflexivity|]. left. now exists x. Qed.

Lemma text_keys_form cfg paths w l :
  _convert_transformer_weights cfg paths w = Ok l ->
  Forall (fun kw => text_key_form (fst kw)) l.
Proof.
  destruct paths as [path prop]. intro H.
  unfold _convert_transformer_weights in H. split_rule H;
    try discriminate;
    match type of H with
    | Ok _ = Ok _ => injection H as <-; constructor
    | _ => apply check_and_zip_ok in H as [Hk _]; apply Forall_map_fst; rewrite Hk;
           repeat constructor;
           first [ apply text_key_form_model
                 | exists "lm_head.weight"; split; [reflexivity | now right] ]
    end.
Qed.

(** C5 (amended): without a vision configuration, every key [convert]
    stores comes from a leaf whose path does not start with the SigLIP
    sentinel ["SigLiPFromPatches_"]: it is a key of the text branch with
    ["language_model."] removed, and it does not start with
    ["vision_model."]. (A key can still contain sentinel text copied from
    the layer index of its source path.) *)
Theorem no_vision_text_keys_only cast cfg target ckpt hf :
  vision_config cfg = None ->
  convert cast cfg target ckpt = Ok hf ->
  forall k t, In (k, t) hf ->
    startswith k "vision_model." = false /\
    exists l pws w, In l ckpt /\
      startswith (fst (fst l)) "SigLiPFromPatches_" = false /\
      _convert_transformer_weights (text_config cfg) (fst l) (snd l) = Ok pws /\
      In (language_model_prefix ++ k, w) pws.
Proof.
  intros Hv H k t Hin. unfold convert in H.
  destruct (convert_loop_emitted _ _ _ _ _ _ H) as (em & Hem & _ & ->).
  apply update_all_in in Hin as [[]|(w & Hw & _)].
  destruct (emitted_in _ _ _ _ Hem Hw) as (l & pws & Hl & Hleaf & Hk).
  destruct l as [[path prop] value]. unfold convert_leaf in Hleaf. simpl fst in Hleaf.
  rewrite Hv in Hleaf.
  destruct (startswith path "SigLiPFromPatches_") eqn:Hs.
  - injection Hleaf as <-. destruct Hk.
  - destruct (_convert_transformer_weights (text_config cfg) (path, prop) value)
      as [pws0|e] eqn:Ht; simpl in Hleaf; [|discriminate].
    injection Hleaf as <-.
    apply in_map_iff in Hk as ([k0 w0] & Hkw & Hin0). cbn [fst snd] in Hkw. injection Hkw as Hk0 ->.
    pose proof (text_keys_form _ _ _ _ Ht) as F. rewrite Forall_forall in F.
    destruct (F _ Hin0) as (r & Hr & Hform). cbn [fst] in Hr. subst k0.
    pose proof (slice_from_app language_model_prefix r) as Sr.
    change (Z.of_nat (String.length language_model_prefix)) with 15%Z in Sr.
    rewrite Sr in Hk0. subst r.
    split.
    + destruct Hform as [(x & ->) | ->]; [|reflexivity].
      apply (startswith_excl _ "model." _ (startswith_app _ _)); reflexivity.
    + exists (path, prop, value), pws0, w. simpl. auto.
Qed.

(** C1 (amended): on a checkpoint made of the leaves of the Gemma 3 layout
    ([canon_leaf]), whose layer indices hold no ['/'] and no ['.'] and whose
    [(path, prop)] pairs are pairwise distinct, a successful run emits
    pairwise distinct destination keys, with or without a vision
    configuration; so no [update_tree] overwrites an entry and the result
    holds every emitted array, cast, in emission order. The run succeeds
    exactly when no emitted weight is a numpy scalar (as unpacking a 1-D
    ["mlp/gating_einsum"] array yields); otherwise [update_tree] raises the
    [TypeError] of [torch.from_numpy]. *)
Theorem canonical_keys_unique cast cfg target cws em :
  forallb (fun cw => canon_ok (fst cw)) cws = true ->
  NoDup (map fst (canon_ckpt cws)) ->
  convert_emitted cfg (canon_ckpt cws) = Ok em ->
  NoDup (map fst em) /\
  convert cast cfg target (canon_ckpt cws) =
    (if no_scalars em then Ok (stored cast target em) else Err FromNumpyTypeError).
Proof.
  intros Hok Hnd H.
  assert (Hk : NoDup (map fst em)).
  { rewrite (emitted_keys _ _ _ Hok H). apply keys_cfg_nodup.
    - unfold canon_ckpt in Hnd. rewrite map_map in Hnd. cbn beta in Hnd.
      apply (NoDup_map_inv canon_paths). now rewrite map_map.
    - clear - Hok. induction cws as [|cw cws IH]; [reflexivity|].
      cbn [map forallb] in *. apply andb_true_iff in Hok as [H1 H2]. now rewrite H1, IH. }
  split; [exact Hk|].
  unfold convert. rewrite (convert_loop_emitted_eq _ _ _ _ _ _ H).
  destruct (no_scalars em); [|reflexivity].
  rewrite update_all_fresh; auto.
Qed.

(** * Further properties of the conversion *)

Module ConvertFacts.

Lemma existsb_eqb_In k s : existsb (String.eqb k) s = true <-> In k s.
Proof.
  rewrite existsb_exists. split.
  - intros (x & Hx & E). apply String.eqb_eq in E. now subst.
  - intro H. exists k. split; [exact H | apply String.eqb_refl].
Qed.

Lemma first_occ_from_ext l s1 s2 :
  (forall x, In x s1 <-> In x s2) -> first_occ_from s1 l = first_occ_from s2 l.
Proof.
  revert s1 s2; induction l as [|k l IH]; intros s1 s2 H; [reflexivity|]. cbn [first_occ_from].
  destruct (existsb (String.eqb k) s1) eqn:E1, (existsb (String.eqb k) s2) eqn:E2.
  - now apply IH.
  - apply existsb_eqb_In, H, existsb_eqb_In in E1. congruence.
  - apply existsb_eqb_In, H, existsb_eqb_In in E2. congruence.
  - f_equal. apply IH. intro x. simpl. now rewrite H.
Qed.

Lemma first_occ_from_nodup l s :
  NoDup (first_occ_from s l) /\ forall x, In x (first_occ_from s l) -> ~ In x s.
Proof.
  revert s; induction l as [|k l IH]; intro s; cbn [first_occ_from].
  - split; [constructor | intros _ []].
  - destruct (existsb (String.eqb k) s) eqn:E; [apply IH|].
    destruct (IH (k :: s)) as [N F]. split.
    + constructor; [|exact N]. intro Hk. apply (F k Hk). now left.
    + intros x [<-|Hx].
      * intro Hin. apply existsb_eqb_In in Hin. congruence.
      * intro Hin. apply (F x Hx). now right.
Qed.

Lemma dict_set_keys {V} (d : list (string * V)) k v :
  map fst (dict_set d k v) =
  if existsb (String.eqb k) (map fst d) then map fst d else (map fst d ++ [k])%list.
Proof.
  induction d as [|[k' v'] d IH]; [reflexivity|]. cbn [dict_set map fst existsb].
  destruct (String.eqb_spec k' k) as [->|Hne].
  - now rewrite String.eqb_refl.
  - replace (String.eqb k k') with false by (symmetry; apply String.eqb_neq; congruence).
    cbn [orb map fst]. rewrite IH. destruct existsb; reflexivity.
Qed.

Lemma update_all_keys cast target em hf :
  map fst (update_all cast target em hf) = (map fst hf ++ first_occ_from (map fst hf) (map fst em))%list.
Proof.
  unfold update_all. revert hf. induction em as [|[k w] em IH]; intro hf; cbn [fold_left map fst first_occ_from].
  - now rewrite app_nil_r.
  - rewrite IH. rewrite dict_set_keys.
    destruct (existsb (String.eqb k) (map fst hf)); [reflexivity|].
    rewrite <- app_assoc. cbn [app]. f_equal. f_equal. apply first_occ_from_ext.
    intro x. rewrite in_app_iff. simpl. tauto.
Qed.

Lemma dict_get_set {V} (d : list (string * V)) k v k' :
  dict_get (dict_set d k v) k' = if String.eqb k k' then Some v else dict_get d k'.
Proof.
  unfold dict_get. induction d as [|[k0 v0] d IH]; cbn [dict_set List.find fst].
  - destruct (String.eqb k k'); reflexivity.
  - destruct (String.eqb_spec k0 k) as [->|Hne]; cbn [List.find fst].
    + destruct (String.eqb k k'); reflexivity.
    + destruct (String.eqb k0 k') eqn:E.
      * apply String.eqb_eq in E. subst. replace (String.eqb k k') with false; [reflexivity|].
        symmetry. apply String.eqb_neq. congruence.
      * exact IH.
Qed.

Lemma find_app {A} (f : A -> bool) l1 l2 :
  List.find f (l1 ++ l2)%list = match List.find f l1 with Some x => Some x | None => List.find f l2 end.
Proof. induction l1 as [|x l1 IH]; simpl; [reflexivity|]. destruct (f x); auto. Qed.

Lemma update_all_get cast target em hf k :
  dict_get (update_all cast target em hf) k =
  match List.find (fun kw => String.eqb (fst kw) k) (List.rev em) with
  | Some kw => Some (astype cast target (astype cast float32 (snd kw)))
  | None => dict_get hf k
  end.
Proof.
  unfold update_all. revert hf. induction em as [|[k0 w0] em IH]; intro hf; [reflexivity|].
  cbn [fold_left List.rev]. rewrite IH, find_app. cbn [List.find fst snd].
  destruct (List.find _ (List.rev em)); [reflexivity|].
  rewrite dict_get_set. destruct (String.eqb k0 k); reflexivity.
Qed.

Lemma convert_loop_cons cast cfg target hf l ckpt :
  convert_loop cast cfg target hf (l :: ckpt) =
  match leaf_error cfg l with
  | Some e => Err e
  | None =>
      convert_loop cast cfg target
        (match convert_leaf cfg l with Ok pws => update_all cast target pws hf | Err _ => hf end) ckpt
  end.
Proof.
  cbn [convert_loop]. unfold leaf_error.
  destruct (convert_leaf cfg l) as [pws|e]; cbn [bind]; [|reflexivity].
  rewrite update_pairs_eq. destruct (no_scalars pws); reflexivity.
Qed.

Lemma convert_loop_err cast cfg target hf ckpt e :
  convert_loop cast cfg target hf ckpt = Err e <->
  exists pre l post, ckpt = (pre ++ l :: post)%list /\
    Forall (fun l' => leaf_error cfg l' = None) pre /\
    leaf_error cfg l = Some e.
Proof.
  revert hf; induction ckpt as [|l ckpt IH]; intro hf.
  - cbn [convert_loop]. split; [discriminate|]. intros ([|] & ? & ? & E & _); discriminate E.
  - rewrite convert_loop_cons. destruct (leaf_error cfg l) as [e'|] eqn:El; [|rewrite IH]; split.
    + intro H. injection H as <-. exists [], l, ckpt. split; [reflexivity|]. split; [constructor|exact El].
    + intros ([|l0 pre] & l' & post & Eq & F & E); cbn [app] in Eq; injection Eq as <- Eq.
      * congruence.
      * inversion F; congruence.
    + intros (pre & l' & post & -> & F & E). exists (l :: pre), l', post.
      split; [reflexivity|]. split; [constructor; assumption | exact E].
    + intros ([|l0 pre] & l' & post & Eq & F & E); cbn [app] in Eq; injection Eq as <- Eq.
      * congruence.
      * subst ckpt. inversion F; subst. exists pre, l', post. auto.
Qed.

Ltac err_kind H :=
  match type of H with
  | Err _ = Err _ => injection H as <-;
      first [ left; reflexivity
            | right; match goal with
                     | E : _ = Err _ |- _ =>
                         first [ exact (transpose_err _ _ _ E) | exact (transpose_all_err _ _ E)
                               | exact (reshape_err _ _ _ E) | exact (unpack2_err _ _ E) ]
                     end ]
  | _check_and_zip _ _ _ = Err _ => exfalso; revert H; apply check_and_zip_err; reflexivity
  end.

Lemma text_err_kind cfg paths w e :
  _convert_transformer_weights cfg paths w = Err e -> rule_error e = true \/ e = ShapeError.
Proof.
  destruct paths as [path prop]. intro H. unfold _convert_transformer_weights in H.
  split_rule H; try discriminate H; err_kind H.
Qed.

Lemma siglip_err_kind cfg paths w e :
  _convert_siglip_weight cfg paths w = Err e -> rule_error e = true \/ e = ShapeError.
Proof.
  destruct paths as [path prop]. intro H. unfold _convert_siglip_weight in H.
  cbv beta iota zeta in H.
  repeat (match type of H with
    | context [if ?b then _ else _] => let Eb := fresh "Eb" in destruct b eqn:Eb
    | bind ?m _ = _ => let Em := fresh "Em" in destruct m eqn:Em
    end; cbn [bind] in H; try discriminate H); err_kind H.
Qed.

Lemma convert_leaf_err_kind cfg l e :
  convert_leaf cfg l = Err e -> rule_error e = true \/ e = ShapeError.
Proof.
  destruct l as [paths value]. unfold convert_leaf.
  destruct (startswith (fst paths) "SigLiPFromPatches_").
  - destruct (vision_config cfg) as [vc|]; [|discriminate].
    destruct (_convert_siglip_weight vc paths value) eqn:E; cbn [bind]; intro H; [discriminate|].
    injection H as <-. exact (siglip_err_kind _ _ _ _ E).
  - destruct (_convert_transformer_weights _ paths value) eqn:E; cbn [bind]; intro H; [discriminate|].
    injection H as <-. exact (text_err_kind _ _ _ _ E).
Qed.

Lemma siglip_key_prefix cfg paths w k t :
  _convert_siglip_weight cfg paths w = Ok (k, t) ->
  startswith k "vision_model.vision_model." = true.
Proof.
  destruct paths as [path prop]. intro H. unfold _convert_siglip_weight in H.
  cbv beta iota zeta in H.
  repeat (match type of H with
    | context [if ?b then _ else _] => let Eb := fresh "Eb" in destruct b eqn:Eb
    | bind ?m _ = _ => let Em := fresh "Em" in destruct m eqn:Em
    end; cbn [bind] in H; try discriminate H);
  repeat match goal with E : (if _ then _ else _) = _ |- _ => revert E end;
  try (injection H as <- _; first [reflexivity | unfold startswith; rewrite ?str_app_assoc; apply prefix_app_r; reflexivity]).
Qed.

Lemma convert_stored_from_leaf cast cfg target ckpt hf k t :
  convert cast cfg target ckpt = Ok hf -> In (k, t) hf ->
  exists l pws w, In l ckpt /\ convert_leaf cfg l = Ok pws /\ In (k, w) pws.
Proof.
  intros H Hin. unfold convert in H.
  destruct (convert_loop_emitted _ _ _ _ _ _ H) as (em & Hem & _ & ->).
  apply update_all_in in Hin as [[]|(w & Hw & _)].
  destruct (emitted_in _ _ _ _ Hem Hw) as (l & pws & Hl & Hleaf & Hk). eauto 6.
Qed.

Lemma ravel_lt J sh : Forall2 lt J sh -> ravel J sh < size sh.
Proof.
  induction 1 as [|i s J sh Hi HJ IH]; cbn [ravel size fold_right] in *; [lia|].
  fold (size sh) in *. nia.
Qed.

Lemma unravel_ravel J sh : Forall2 lt J sh -> unravel (ravel J sh) sh = J.
Proof.
  induction 1 as [|i s J sh Hi HJ IH]; [reflexivity|]. cbn [ravel unravel].
  pose proof (ravel_lt _ _ HJ) as L.
  rewrite <- (Nat.div_unique (i * size sh + ravel J sh) (size sh) i (ravel J sh)) by (lia || nia).
  rewrite <- (Nat.mod_unique (i * size sh + ravel J sh) (size sh) i (ravel J sh)) by (lia || nia).
  now rewrite IH.
Qed.

Lemma nth_map_seq {A} (f : nat -> A) d n len : n < len -> nth n (map f (seq 0 len)) d = f n.
Proof.
  intro H. rewrite nth_indep with (d' := f 0) by (rewrite length_map, length_seq; lia).
  rewrite map_nth, seq_nth by lia. reflexivity.
Qed.

Lemma transpose_data axes a t J :
  transpose axes a = Ok t -> Forall2 lt J (shape t) ->
  nth (ravel J (shape t)) (data t) 0%Z =
  nth (ravel (map (fun m => nth (index_of m axes) J 0) (seq 0 (List.length (shape a)))) (shape a))
      (data a) 0%Z.
Proof.
  unfold transpose. destruct is_perm; [|discriminate]. intro H. injection H as <-.
  cbn [shape data]. intro HJ. pose proof (ravel_lt _ _ HJ) as L.
  rewrite nth_map_seq by exact L. now rewrite unravel_ravel.
Qed.

Lemma transpose_shape axes a t :
  transpose axes a = Ok t -> shape t = map (fun k => nth k (shape a) 0) axes /\
  List.length (data t) = size (shape t) /\ dtype_of t = dtype_of a.
Proof.
  unfold transpose. destruct is_perm; [|discriminate]. intro H. injection H as <-.
  cbn [shape data dtype_of]. now rewrite length_map, length_seq.
Qed.

(** A 2-D array transposed: element [(j, i)] of the result is element [(i, j)]. *)
Lemma transpose_all_2d a r c :
  shape a = [r; c] ->
  exists t, transpose_all a = Ok t /\ shape t = [c; r] /\ dtype_of t = dtype_of a /\
    List.length (data t) = c * r /\
    forall i j, i < r -> j < c -> nth (j * r + i) (data t) 0%Z = nth (i * c + j) (data a) 0%Z.
Proof.
  intro Hs. unfold transpose_all, ndim. rewrite Hs.
  destruct (transpose [1; 0] a) as [t|e] eqn:E;
    [|unfold transpose in E; rewrite Hs in E; discriminate E].
  destruct (transpose_shape _ _ _ E) as (St & Lt & Dt). rewrite Hs in St. cbn in St.
  exists t. split; [exact E|]. split; [exact St|]. split; [exact Dt|].
  split; [rewrite Lt, St; cbn; lia|].
  intros i j Hi Hj. pose proof (transpose_data _ _ _ [j; i] E) as D.
  rewrite St, Hs in D. cbn in D.
  replace (j * r + i) with (j * (r * 1) + (i * 1 + 0)) by lia.
  replace (i * c + j) with (i * (c * 1) + (j * 1 + 0)) by lia.
  apply D. repeat constructor; lia.
Qed.

(** A 1-D array is its own transpose. *)
Lemma transpose_all_1d a n :
  shape a = [n] -> List.length (data a) = n -> transpose_all a = Ok a.
Proof.
  intros Hs Hl. unfold transpose_all, ndim. rewrite Hs.
  destruct (transpose [0] a) as [t|e] eqn:E;
    [|unfold transpose in E; rewrite Hs in E; discriminate E].
  destruct (transpose_shape _ _ _ E) as (St & Lt & Dt). rewrite Hs in St. cbn in St.
  assert (Is : is_scalar t = is_scalar a).
  { unfold transpose in E. destruct (is_perm _ _); [|discriminate E]. now injection E as <-. }
  change (transpose [0] a = Ok a). rewrite E. f_equal.
  destruct a as [dt sh d sc], t as [dt' sh' d' sc']. cbn in *. subst.
  f_equal. apply nth_ext with (d := 0%Z) (d' := 0%Z); [cbn in Lt; lia|].
  intros j Hj. pose proof (transpose_data _ _ _ [j] E) as D. cbn in D.
  replace j with (j * 1 + 0) by lia. apply D. repeat constructor. cbn in Lt. lia.
Qed.

Lemma transpose_021_data a x y z :
  shape a = [x; y; z] ->
  exists t, transpose [0; 2; 1] a = Ok t /\ shape t = [x; z; y] /\ dtype_of t = dtype_of a /\
    forall i j k, i < x -> j < z -> k < y ->
      nth ((i * z + j) * y + k) (data t) 0%Z = nth ((i * y + k) * z + j) (data a) 0%Z.
Proof.
  intro Hs. destruct (transpose_021 a x y z Hs) as (t & E & St).
  destruct (transpose_shape _ _ _ E) as (_ & _ & Dt).
  exists t. split; [exact E|]. split; [exact St|]. split; [exact Dt|].
  intros i j k Hi Hj Hk. pose proof (transpose_data _ _ _ [i; j; k] E) as D.
  rewrite St, Hs in D. cbn in D.
  replace ((i * z + j) * y + k) with (i * (z * (y * 1)) + (j * (y * 1) + (k * 1 + 0))) by lia.
  replace ((i * y + k) * z + j) with (i * (y * (z * 1)) + (k * (z * 1) + (j * 1 + 0))) by lia.
  apply D. repeat constructor; lia.
Qed.

Lemma transpose_reshape_3d w h hs hd :
  shape w = [h; hs; hd] ->
  exists t, transpose [0; 2; 1] w = Ok t /\
    transpose_reshape w = Ok (mk_nd (dtype_of t) [h * hd; hs] (data t)) /\
    reshape [Z.of_nat (h * hd); Z.of_nat hs] t = Ok (mk_nd (dtype_of t) [h * hd; hs] (data t)) /\
    dtype_of t = dtype_of w /\
    forall i j k, i < h -> j < hd -> k < hs ->
      nth ((i * hd + j) * hs + k) (data t) 0%Z = nth ((i * hs + k) * hd + j) (data w) 0%Z.
Proof.
  intro Hs. destruct (transpose_021_data w h hs hd Hs) as (t & E & St & Dt & El).
  assert (R : reshape [Z.of_nat (h * hd); Z.of_nat hs] t = Ok (mk_nd (dtype_of t) [h * hd; hs] (data t))).
  { apply (reshape_nat [h * hd; hs]). rewrite St. cbn. lia. }
  exists t. split; [exact E|]. split; [|split; [exact R|split; [exact Dt|exact El]]].
  unfold transpose_reshape, ndim. rewrite Hs. cbn [List.length Nat.ltb Nat.leb seq Nat.sub].
  rewrite E. cbn [bind]. rewrite St. exact R.
Qed.

Lemma prefix_cancel (a b c : string) : String.prefix (a ++ b) (a ++ c) = String.prefix b c.
Proof.
  induction a as [|x a IH]; [reflexivity|]. cbn [String.append String.prefix].
  destruct (ascii_dec x x); [exact IH | congruence].
Qed.

Lemma startswith_dot_key (base s : string) :
  String.prefix "." s = true -> startswith (base ++ s) (base ++ ".") = true.
Proof. intro H. unfold startswith. now rewrite prefix_cancel. Qed.

Lemma find_none_from (s : string) (i : nat) :
  contains s "/" = false -> find_from s "/" i = (-1)%Z.
Proof.
  revert i; induction s as [|c s IH]; intros i H; [reflexivity|].
  cbn [contains] in H. apply orb_false_iff in H as [H1 H2].
  cbn [find_from]. rewrite H1. apply IH, H2.
Qed.

Lemma slice_to_no_sep (r : string) :
  contains r "/" = false -> slice_to r (find r "/") = substring 0 (String.length r - 1) r.
Proof. intro H. unfold find. now rewrite find_none_from. Qed.

Lemma decoder_keys_base cfg r prop w l :
  _convert_transformer_weights cfg (_TRANSFORMER_DECODER_BLOCK ++ r, prop) w = Ok l ->
  Forall (fun kw => startswith (fst kw) (decoder_base_path r ++ ".") = true) l.
Proof.
  intro H. destruct (decoder_dispatch r) as (E1 & E2 & E3 & E4 & E5).
  unfold _convert_transformer_weights in H. cbv beta iota zeta in H.
  rewrite E1, E2, E3, E4, E5 in H. fold (decoder_base_path r) in H.
  split_rule H; try discriminate H.
  all: apply check_and_zip_ok in H as [Hk _];
       apply (Forall_map_fst (fun k => startswith k (decoder_base_path r ++ ".") = true)); rewrite Hk;
       repeat constructor; apply startswith_dot_key; reflexivity.
Qed.

Ltac decoder_branch r Hend :=
  destruct (decoder_dispatch r) as (E1 & E2 & E3 & E4 & E5);
  unfold _convert_transformer_weights; cbv beta iota zeta;
  rewrite E1, E2, E3, E4, E5; fold (decoder_base_path r);
  try rewrite (endswith_excl _ _ "attn/attn_vec_einsum" Hend eq_refl eq_refl);
  try rewrite (endswith_excl _ _ "attn/_key_norm" Hend eq_refl eq_refl);
  try rewrite (endswith_excl _ _ "attn/kv_einsum" Hend eq_refl eq_refl);
  try rewrite (endswith_excl _ _ "attn/q_einsum" Hend eq_refl eq_refl);
  try rewrite (endswith_excl _ _ "attn/_query_norm" Hend eq_refl eq_refl);
  try rewrite (endswith_excl _ _ "mlp/gating_einsum" Hend eq_refl eq_refl);
  try rewrite (endswith_excl _ _ "mlp/linear" Hend eq_refl eq_refl);
  try rewrite (endswith_excl _ _ "post_attention_norm" Hend eq_refl eq_refl);
  try rewrite (endswith_excl _ _ "post_ffw_norm" Hend eq_refl eq_refl);
  try rewrite (endswith_excl _ _ "pre_attention_norm" Hend eq_refl eq_refl);
  rewrite Hend; cbv beta iota.

Lemma substring_length_le (s : string) n m : String.length (substring n m s) <= m.
Proof.
  revert n m; induction s as [|c s IH]; intros [|n] [|m]; cbn; auto; try lia.
  - specialize (IH 0 m). lia.
Qed.

Lemma prefix_length (p s : string) : String.prefix p s = true -> String.length p <= String.length s.
Proof.
  revert s; induction p as [|x p IH]; intros [|y s] H; cbn in *; try lia; try discriminate.
  destruct (ascii_dec x y); [apply IH in H; lia | discriminate].
Qed.

Lemma startswith_short (s p : string) :
  String.length s < String.length p -> startswith s p = false.
Proof.
  intro H. unfold startswith. destruct (String.prefix p s) eqn:E; [|reflexivity].
  apply prefix_length in E. lia.
Qed.

Lemma slice_from_last_length (r : string) : String.length (slice_from r (-1)) <= 1.
Proof.
  unfold slice_from. change (norm_index r (-1)) with (String.length r - 1).
  pose proof (substring_length_le r (String.length r - 1) (String.length r - (String.length r - 1))).
  lia.
Qed.

Ltac siglip_block_prep r :=
  pose proof (prefix_app _SIGLIP_TRANSFORMER_ENCODER_BLOCK r) as P;
  unfold _convert_siglip_weight; cbv beta iota zeta;
  rewrite (prefix_eqb_false _ _ _SIGLIP_BASE P eq_refl),
          (prefix_eqb_false _ _ _SIGLIP_EMBEDDING P eq_refl);
  unfold startswith at 1; rewrite P;
  unfold _SIGLIP_TRANSFORMER_ENCODER_BLOCK_LEN; rewrite slice_from_app.

Lemma reshape_rows k a :
  reshape [(-1)%Z; Z.of_nat k] a =
  if Nat.eqb k 0 || negb (Nat.eqb (size (shape a) mod k) 0) then Err ShapeError
  else Ok (mk_nd (dtype_of a) [size (shape a) / k; k] (data a)).
Proof.
  destruct k as [|k]; [reflexivity|].
  change (Z.of_nat (S k)) with (Zpos (Pos.of_succ_nat k)).
  unfold reshape. cbn -[size Nat.modulo Nat.div Pos.to_nat Pos.of_succ_nat].
  rewrite SuccNat2Pos.id_succ. replace (size [S k]) with (S k) by (cbn; lia).
  fold (size (shape a)). reflexivity.
Qed.

Ltac siglip_block_run Hs :=
  match goal with
  | |- _convert_siglip_weight _ (_ ++ ?idx ++ String "/" ?rest, _) _ = _ =>
      siglip_block_prep (idx ++ String "/" rest);
      rewrite (find_sep _ _ _ Hs), slice_to_app, slice_from_app;
      rewrite <- (str_app_assoc _ idx); rewrite ?endswith_cut by reflexivity;
      cbv beta iota zeta
  end.

End ConvertFacts.

Import ConvertFacts.

(** Key order of the result: after a successful run the dictionary
    [convert] returns has pairwise distinct keys, in the order in which each
    key was first handed to [update_tree]; a repeated key keeps the position
    of its first assignment. *)
Theorem convert_keys_first_occurrence cast cfg target ckpt em hf :
  convert_emitted cfg ckpt = Ok em ->
  convert cast cfg target ckpt = Ok hf ->
  NoDup (map fst hf) /\ map fst hf = first_occ_from [] (map fst em).
Proof.
  intros He Hc. unfold convert in Hc.
  destruct (convert_loop_emitted _ _ _ _ _ _ Hc) as (em' & He' & _ & ->).
  rewrite He in He'. injection He' as <-. rewrite update_all_keys. cbn [map app].
  split; [apply first_occ_from_nodup | reflexivity].
Qed.

(** Last write wins: in the result of a successful run, a key holds the
    array of the last pair with that key handed to [update_tree], cast to
    float32 and then to the target dtype; a key never handed over is
    missing. *)
Theorem convert_last_write_wins cast cfg target ckpt em hf :
  convert_emitted cfg ckpt = Ok em ->
  convert cast cfg target ckpt = Ok hf ->
  forall k, dict_get hf k =
    option_map (fun kw => astype cast target (astype cast float32 (snd kw)))
      (List.find (fun kw => String.eqb (fst kw) k) (List.rev em)).
Proof.
  intros He Hc k. unfold convert in Hc.
  destruct (convert_loop_emitted _ _ _ _ _ _ Hc) as (em' & He' & _ & ->).
  rewrite He in He'. injection He' as <-. rewrite update_all_get. destruct List.find; reflexivity.
Qed.

(** [convert] raises an error exactly when some leaf fails, while every
    leaf before it goes through; the error is the one of that first failing
    leaf, whatever the leaves after it hold. A leaf fails when its rule
    raises, or when one of the weights it hands to [update_tree] is a numpy
    scalar and [torch.from_numpy] raises its [TypeError] ([leaf_error]). *)
Theorem convert_error_first_failing_leaf cast cfg target ckpt e :
  convert cast cfg target ckpt = Err e <->
  exists pre l post, ckpt = (pre ++ l :: post)%list /\
    Forall (fun l' => leaf_error cfg l' = None) pre /\
    leaf_error cfg l = Some e.
Proof. apply convert_loop_err. Qed.

(** Without a vision configuration, [convert] gives the same outcome,
    result or error, as on the checkpoint with every leaf whose path starts
    with ["SigLiPFromPatches_"] removed: such leaves are skipped, even ones
    no rule would accept. *)
Theorem convert_skips_siglip_without_vision cast cfg target ckpt :
  vision_config cfg = None ->
  convert cast cfg target ckpt =
  convert cast cfg target
    (filter (fun l => negb (startswith (fst (fst l)) "SigLiPFromPatches_")) ckpt).
Proof.
  intro Hv. unfold convert. generalize (@nil (string * ndarray)).
  induction ckpt as [|[[path prop] value] ckpt IH]; intro hf; [reflexivity|].
  cbn [filter fst]. cbn [convert_loop].
  destruct (startswith path "SigLiPFromPatches_") eqn:Es; cbn [negb].
  - unfold convert_leaf at 1. cbn [fst]. rewrite Es, Hv. cbn [bind update_pairs]. apply IH.
  - cbn [convert_loop]. destruct (convert_leaf cfg (path, prop, value)); cbn [bind]; [|reflexivity].
    destruct (update_pairs cast target hf a); cbn [bind]; [apply IH|reflexivity].
Qed.

(** Every error [convert] raises is one of the script's unexpected
    member, sub-path or path errors, a numpy shape error, or the
    [TypeError] of [torch.from_numpy] on a numpy scalar; the
    length-mismatch error is never raised. *)
Theorem convert_error_kinds cast cfg target ckpt e :
  convert cast cfg target ckpt = Err e ->
  rule_error e = true \/ e = ShapeError \/ e = FromNumpyTypeError.
Proof.
  intro H. apply convert_loop_err in H as (pre & l & post & _ & _ & E).
  unfold leaf_error in E. destruct (convert_leaf cfg l) as [pws|e'] eqn:El.
  - destruct (no_scalars pws); [discriminate|]. injection E as <-. auto.
  - injection E as <-. destruct (convert_leaf_err_kind _ _ _ El); auto.
Qed.

(** A decoder-block ["mlp/gating_einsum"] leaf holding a 1-D array of
    length 2 passes its rule, but unpacking it yields two numpy scalars, and
    [update_tree] raises the [TypeError] of [torch.from_numpy] on the
    first; so [convert] fails, with or without a vision configuration. *)
Theorem gating_einsum_1d_type_error cast cfg target r prop w :
  endswith (_TRANSFORMER_DECODER_BLOCK ++ r) "mlp/gating_einsum" = true ->
  shape w = [2] ->
  convert cast cfg target [((_TRANSFORMER_DECODER_BLOCK ++ r, prop), w)] = Err FromNumpyTypeError.
Proof.
  intros Hend Hsh.
  assert (Hr : _convert_transformer_weights (text_config cfg) (_TRANSFORMER_DECODER_BLOCK ++ r, prop) w =
               Ok [(decoder_base_path r ++ ".mlp.gate_proj.weight", index0 w 0);
                   (decoder_base_path r ++ ".mlp.up_proj.weight", index0 w 1)]).
  { destruct (decoder_dispatch r) as (E1 & E2 & E3 & E4 & E5).
    unfold _convert_transformer_weights. cbv beta iota zeta.
    rewrite E1, E2, E3, E4, E5.
    rewrite (endswith_excl _ _ "attn/attn_vec_einsum" Hend eq_refl eq_refl).
    rewrite (endswith_excl _ _ "attn/_key_norm" Hend eq_refl eq_refl).
    rewrite (endswith_excl _ _ "attn/kv_einsum" Hend eq_refl eq_refl).
    rewrite (endswith_excl _ _ "attn/q_einsum" Hend eq_refl eq_refl).
    rewrite (endswith_excl _ _ "attn/_query_norm" Hend eq_refl eq_refl).
    rewrite Hend. cbv beta iota.
    rewrite (unpack2_two _ _ Hsh). reflexivity. }
  unfold convert. cbn [convert_loop]. unfold convert_leaf. cbn [fst snd].
  rewrite (startswith_excl _ _ "SigLiPFromPatches_" (startswith_app _TRANSFORMER_DECODER_BLOCK r)
             eq_refl eq_refl).
  rewrite Hr. cbn [bind].
  destruct (vision_config cfg); cbn [map fst snd update_pairs]; unfold update_tree;
    cbn [astype is_scalar index0]; rewrite Hsh; reflexivity.
Qed.

(** Every destination key [_convert_siglip_weight] returns starts with
    ["vision_model.vision_model."]. *)
Theorem siglip_keys_in_vision_namespace cfg paths w k t :
  _convert_siglip_weight cfg paths w = Ok (k, t) ->
  startswith k "vision_model.vision_model." = true.
Proof. apply siglip_key_prefix. Qed.

(** With a vision configuration, every key of a successful [convert]
    starts with ["language_model."] or with ["vision_model.vision_model."]. *)
Theorem convert_multimodal_key_namespaces cast cfg target ckpt hf vc :
  vision_config cfg = Some vc ->
  convert cast cfg target ckpt = Ok hf ->
  forall k t, In (k, t) hf ->
    startswith k "language_model." = true \/ startswith k "vision_model.vision_model." = true.
Proof.
  intros Hv H k t Hin.
  destruct (convert_stored_from_leaf _ _ _ _ _ _ _ H Hin) as ([[path prop] value] & pws & w & _ & Hl & Hk).
  unfold convert_leaf in Hl. rewrite Hv in Hl.
  destruct (startswith (fst (path, prop)) "SigLiPFromPatches_").
  - destruct (_convert_siglip_weight vc (path, prop) value) as [[k0 t0]|e] eqn:E;
      cbn [bind] in Hl; [|discriminate].
    injection Hl as <-. destruct Hk as [Hk|[]]. injection Hk as -> ->.
    right. exact (siglip_key_prefix _ _ _ _ _ E).
  - destruct (_convert_transformer_weights _ (path, prop) value) as [l|e] eqn:E;
      cbn [bind] in Hl; [|discriminate].
    injection Hl as <-. rewrite map_id in Hk.
    pose proof (text_keys_form _ _ _ _ E) as F. rewrite Forall_forall in F.
    destruct (F _ Hk) as (r & Hr & _). cbn [fst] in Hr. subst k.
    left. apply startswith_app.
Qed.

(** Without a vision configuration, every key of a successful [convert]
    starts with ["model."] or is ["lm_head.weight"]. *)
Theorem convert_text_only_key_names cast cfg target ckpt hf :
  vision_config cfg = None ->
  convert cast cfg target ckpt = Ok hf ->
  forall k t, In (k, t) hf -> startswith k "model." = true \/ k = "lm_head.weight".
Proof.
  intros Hv H k t Hin.
  destruct (convert_stored_from_leaf _ _ _ _ _ _ _ H Hin) as ([[path prop] value] & pws & w & _ & Hl & Hk).
  unfold convert_leaf in Hl. rewrite Hv in Hl.
  destruct (startswith (fst (path, prop)) "SigLiPFromPatches_").
  - injection Hl as <-. destruct Hk.
  - destruct (_convert_transformer_weights _ (path, prop) value) as [l|e] eqn:E;
      cbn [bind] in Hl; [|discriminate].
    injection Hl as <-. apply in_map_iff in Hk as ([k0 w0] & Hkw & Hin0).
    cbn [fst snd] in Hkw. injection Hkw as Hk0 _.
    pose proof (text_keys_form _ _ _ _ E) as F. rewrite Forall_forall in F.
    destruct (F _ Hin0) as (r & Hr & Hform). cbn [fst] in Hr. subst k0.
    pose proof (slice_from_app language_model_prefix r) as Sr.
    change (Z.of_nat (String.length language_model_prefix)) with 15%Z in Sr.
    rewrite Sr in Hk0. subst r.
    destruct Hform as [(x & ->) | ->]; [left; apply startswith_app | now right].
Qed.

(** [transpose_reshape] on a (heads, hidden, head_dim) array gives the
    (heads * head_dim, hidden) array whose element (i * head_dim + j, k) is
    input element (i, k, j), in the input's dtype. When the configuration's
    sizes match the array, this is the q_proj weight the ["attn/q_einsum"]
    rule of [_convert_transformer_weights] emits. *)
Theorem transpose_reshape_q_einsum cfg r prop w h hs hd :
  endswith (_TRANSFORMER_DECODER_BLOCK ++ r) "attn/q_einsum" = true ->
  shape w = [h; hs; hd] ->
  num_attention_heads cfg * head_dim cfg = h * hd -> hidden_size cfg = hs ->
  exists y, transpose_reshape w = Ok y /\ shape y = [h * hd; hs] /\ dtype_of y = dtype_of w /\
    (forall i j k, i < h -> j < hd -> k < hs ->
       nth ((i * hd + j) * hs + k) (data y) 0%Z = nth ((i * hs + k) * hd + j) (data w) 0%Z) /\
    _convert_transformer_weights cfg (_TRANSFORMER_DECODER_BLOCK ++ r, prop) w =
      Ok [(decoder_base_path r ++ ".self_attn.q_proj.weight", y)].
Proof.
  intros Hend Hs Ha Hh. destruct (transpose_reshape_3d w h hs hd Hs) as (t & E & TR & R & Dt & El).
  exists (mk_nd (dtype_of t) [h * hd; hs] (data t)).
  split; [exact TR|]. split; [reflexivity|]. split; [exact Dt|]. split; [exact El|].
  destruct (decoder_dispatch r) as (E1 & E2 & E3 & E4 & E5).
  unfold _convert_transformer_weights. cbv beta iota zeta.
  rewrite E1, E2, E3, E4, E5.
  rewrite (endswith_excl _ _ "attn/attn_vec_einsum" Hend eq_refl eq_refl).
  rewrite (endswith_excl _ _ "attn/_key_norm" Hend eq_refl eq_refl).
  rewrite (endswith_excl _ _ "attn/kv_einsum" Hend eq_refl eq_refl).
  rewrite Hend. cbv beta iota. rewrite E. cbn [bind]. rewrite Ha, Hh, R. reflexivity.
Qed.

(** A decoder-block path ["transformer/layer_" ++ idx ++ "/" ++ rest]
    with no ['/'] in [idx] gives keys that all start with
    ["language_model.model.layers." ++ idx ++ "."]. *)
Theorem decoder_layer_index_kept cfg idx rest prop w l :
  contains idx "/" = false ->
  _convert_transformer_weights cfg (_TRANSFORMER_DECODER_BLOCK ++ idx ++ "/" ++ rest, prop) w = Ok l ->
  Forall (fun kw => startswith (fst kw) ("language_model.model.layers." ++ idx ++ ".") = true) l.
Proof.
  intros Hs H. apply decoder_keys_base in H.
  change ("/" ++ rest) with (String "/" rest) in H.
  unfold decoder_base_path in H. rewrite (find_sep _ _ _ Hs), slice_to_app in H.
  now rewrite str_app_assoc in H.
Qed.

(** When the rest of a decoder-block path after ["transformer/layer_"]
    holds no ['/'], [find] returns -1 and the slice [[:-1]] makes the layer
    index that rest without its last character: every key starts with
    ["language_model.model.layers."], that index and ["."]. *)
Theorem decoder_index_without_separator cfg r prop w l :
  contains r "/" = false ->
  _convert_transformer_weights cfg (_TRANSFORMER_DECODER_BLOCK ++ r, prop) w = Ok l ->
  Forall (fun kw => startswith (fst kw)
            ("language_model.model.layers." ++ substring 0 (String.length r - 1) r ++ ".") = true) l.
Proof.
  intros Hs H. apply decoder_keys_base in H.
  unfold decoder_base_path in H. rewrite (slice_to_no_sep _ Hs) in H.
  now rewrite str_app_assoc in H.
Qed.

(** The six norm rules of a decoder block (key, query, post-attention,
    post-feed-forward, pre-attention and pre-feed-forward norms) emit the
    input array unchanged, whatever its shape, under their destination
    name. *)
Theorem decoder_norms_unchanged cfg r prop w sfx name :
  In (sfx, name) decoder_norm_rules ->
  endswith (_TRANSFORMER_DECODER_BLOCK ++ r) sfx = true ->
  _convert_transformer_weights cfg (_TRANSFORMER_DECODER_BLOCK ++ r, prop) w =
    Ok [(decoder_base_path r ++ name, w)].
Proof.
  intros Hin Hend.
  repeat (destruct Hin as [Hin|Hin]; [injection Hin as <- <-; decoder_branch r Hend; reflexivity|]).
  destruct Hin.
Qed.

(** The ["mlp/linear"] rule emits as down_proj weight the transpose of
    the (I, O) input: element (b, a) of the result is input element
    (a, b). *)
Theorem decoder_mlp_linear_transposed cfg r prop w i o :
  endswith (_TRANSFORMER_DECODER_BLOCK ++ r) "mlp/linear" = true ->
  shape w = [i; o] ->
  exists t, _convert_transformer_weights cfg (_TRANSFORMER_DECODER_BLOCK ++ r, prop) w =
      Ok [(decoder_base_path r ++ ".mlp.down_proj.weight", t)] /\
    shape t = [o; i] /\ dtype_of t = dtype_of w /\
    forall a b, a < i -> b < o -> nth (b * i + a) (data t) 0%Z = nth (a * o + b) (data w) 0%Z.
Proof.
  intros Hend Hs. destruct (transpose_all_2d w i o Hs) as (t & E & St & Dt & _ & El).
  exists t. split; [|auto]. decoder_branch r Hend. rewrite E. reflexivity.
Qed.

(** The ["attn/attn_vec_einsum"] rule turns a (heads, head_dim, hidden)
    array into the (hidden, heads * head_dim) o_proj weight whose element
    (k, i * head_dim + j) is input element (i, j, k), when the
    configuration's sizes match the array. *)
Theorem decoder_attn_vec_einsum cfg r prop w h hd hs :
  endswith (_TRANSFORMER_DECODER_BLOCK ++ r) "attn/attn_vec_einsum" = true ->
  shape w = [h; hd; hs] ->
  num_attention_heads cfg * head_dim cfg = h * hd -> hidden_size cfg = hs ->
  exists t, _convert_transformer_weights cfg (_TRANSFORMER_DECODER_BLOCK ++ r, prop) w =
      Ok [(decoder_base_path r ++ ".self_attn.o_proj.weight", t)] /\
    shape t = [hs; h * hd] /\ dtype_of t = dtype_of w /\
    forall i j k, i < h -> j < hd -> k < hs ->
      nth (k * (h * hd) + (i * hd + j)) (data t) 0%Z = nth ((i * hd + j) * hs + k) (data w) 0%Z.
Proof.
  intros Hend Hs Ha Hh.
  destruct (transpose [2; 0; 1] w) as [u|e] eqn:E;
    [|unfold transpose in E; rewrite Hs in E; discriminate E].
  destruct (transpose_shape _ _ _ E) as (Su & _ & Du). rewrite Hs in Su. cbn in Su.
  assert (R : reshape [Z.of_nat hs; Z.of_nat (h * hd)] u = Ok (mk_nd (dtype_of u) [hs; h * hd] (data u))).
  { apply (reshape_nat [hs; h * hd]). rewrite Su. cbn. lia. }
  exists (mk_nd (dtype_of u) [hs; h * hd] (data u)). split; [|split; [reflexivity|split; [exact Du|]]].
  - decoder_branch r Hend. rewrite E. cbn [bind]. rewrite Ha, Hh, R. reflexivity.
  - intros i j k Hi Hj Hk. cbn [data]. pose proof (transpose_data _ _ _ [k; i; j] E) as D.
    rewrite Su, Hs in D. cbn in D.
    replace (k * (h * hd) + (i * hd + j)) with (k * (h * (hd * 1)) + (i * (hd * 1) + (j * 1 + 0))) by lia.
    replace ((i * hd + j) * hs + k) with (i * (hd * (hs * 1)) + (j * (hs * 1) + (k * 1 + 0))) by lia.
    apply D. repeat constructor; lia.
Qed.

(** A SigLIP encoder-block path with no ['/'] after the prefix
    ["..._encoderblock_"] is always rejected as an unexpected path. *)
Theorem siglip_block_without_separator vc r prop w :
  contains r "/" = false ->
  _convert_siglip_weight vc (_SIGLIP_TRANSFORMER_ENCODER_BLOCK ++ r, prop) w =
    Err (UnexpectedPath (_SIGLIP_TRANSFORMER_ENCODER_BLOCK ++ r)).
Proof.
  intro Hs. siglip_block_prep r. unfold find. rewrite (find_none_from _ _ Hs).
  pose proof (slice_from_last_length r) as L.
  rewrite !startswith_short by (cbn [String.length]; lia). reflexivity.
Qed.

(** A SigLIP encoder-block path [prefix ++ idx ++ "/" ++ rest] with no
    ['/'] in [idx] gives a key starting with
    ["vision_model.vision_model.encoder.layers." ++ idx ++ "."]. *)
Theorem siglip_layer_index_kept vc idx rest prop w k t :
  contains idx "/" = false ->
  _convert_siglip_weight vc (_SIGLIP_TRANSFORMER_ENCODER_BLOCK ++ idx ++ "/" ++ rest, prop) w = Ok (k, t) ->
  startswith k ("vision_model.vision_model.encoder.layers." ++ idx ++ ".") = true.
Proof.
  intros Hs. change ("/" ++ rest) with (String "/" rest).
  siglip_block_prep (idx ++ String "/" rest).
  rewrite (find_sep _ _ _ Hs), slice_to_app, slice_from_app.
  intro H.
  repeat (match type of H with
    | context [if ?b then _ else _] => let Eb := fresh "Eb" in destruct b eqn:Eb
    | bind ?m _ = _ => let Em := fresh "Em" in destruct m eqn:Em
    end; cbn [bind] in H; try discriminate H).
  all: match type of H with
       | Ok (?k0, _) = Ok _ => replace k with k0 by congruence
       end;
       rewrite !str_app_assoc; unfold startswith; rewrite !prefix_cancel; reflexivity.
Qed.

(** The position embedding, for any property, keeps its data and gets
    the shape (size / hidden_size, hidden_size) when hidden_size is not zero
    and divides the size of the array; otherwise the reshape raises a shape
    error. *)
Theorem siglip_position_embedding vc prop w :
  _convert_siglip_weight vc (_SIGLIP_BASE, prop) w =
  let hs := vision_hidden_size vc in
  let n := size (shape w) in
  if Nat.eqb hs 0 || negb (Nat.eqb (n mod hs) 0) then Err ShapeError
  else Ok ("vision_model.vision_model.embeddings.position_embedding.weight",
           mk_nd (dtype_of w) [n / hs; hs] (data w)).
Proof.
  unfold _convert_siglip_weight. cbv beta iota zeta. rewrite String.eqb_refl, reshape_rows.
  destruct (_ || _); reflexivity.
Qed.

(** The patch-embedding kernel of shape (H, W, C, O) is stored with its
    axes reordered to (O, C, H, W): element (j, i, a, b) of the result is
    input element (a, b, i, j). *)
Theorem siglip_patch_kernel vc w h wd c o :
  shape w = [h; wd; c; o] ->
  exists t, _convert_siglip_weight vc (_SIGLIP_EMBEDDING, "kernel") w =
      Ok ("vision_model.vision_model.embeddings.patch_embedding.weight", t) /\
    shape t = [o; c; h; wd] /\ dtype_of t = dtype_of w /\
    forall a b i j, a < h -> b < wd -> i < c -> j < o ->
      nth (((j * c + i) * h + a) * wd + b) (data t) 0%Z =
      nth (((a * wd + b) * c + i) * o + j) (data w) 0%Z.
Proof.
  intro Hs.
  destruct (transpose [3; 2; 0; 1] w) as [t|e] eqn:E;
    [|unfold transpose in E; rewrite Hs in E; discriminate E].
  destruct (transpose_shape _ _ _ E) as (St & _ & Dt). rewrite Hs in St. cbn in St.
  exists t. split; [|split; [exact St|split; [exact Dt|]]].
  - change (_convert_siglip_weight vc (_SIGLIP_EMBEDDING, "kernel") w) with
      (let* w' := transpose [3; 2; 0; 1] w in
       Ok ("vision_model.vision_model.embeddings.patch_embedding.weight", w')).
    rewrite E. reflexivity.
  - intros a b i j Ha Hb Hi Hj. pose proof (transpose_data _ _ _ [j; i; a; b] E) as D.
    rewrite St, Hs in D. cbn in D.
    replace (((j * c + i) * h + a) * wd + b)
      with (j * (c * (h * (wd * 1))) + (i * (h * (wd * 1)) + (a * (wd * 1) + (b * 1 + 0)))) by lia.
    replace (((a * wd + b) * c + i) * o + j)
      with (a * (wd * (c * (o * 1))) + (b * (c * (o * 1)) + (i * (o * 1) + (j * 1 + 0)))) by lia.
    apply D. repeat constructor; lia.
Qed.

(** On a 1-D array, the patch-embedding bias, the encoder-norm scale and
    bias, the scales and biases of LayerNorm_0 and LayerNorm_1 (stored as
    layer_norm1 and layer_norm2) and the biases of Dense_0 and Dense_1
    (stored as fc1 and fc2) are stored unchanged. *)
Theorem siglip_unchanged_leaves vc idx w n :
  contains idx "/" = false -> shape w = [n] -> List.length (data w) = n ->
  _convert_siglip_weight vc (_SIGLIP_EMBEDDING, "bias") w =
    Ok ("vision_model.vision_model.embeddings.patch_embedding.bias", w) /\
  _convert_siglip_weight vc (_SIGLIP_TRANSFORMER_ENCODER_NORM, "scale") w =
    Ok ("vision_model.vision_model.post_layernorm.weight", w) /\
  _convert_siglip_weight vc (_SIGLIP_TRANSFORMER_ENCODER_NORM, "bias") w =
    Ok ("vision_model.vision_model.post_layernorm.bias", w) /\
  _convert_siglip_weight vc (_SIGLIP_TRANSFORMER_ENCODER_BLOCK ++ idx ++ "/LayerNorm_0", "scale") w =
    Ok ("vision_model.vision_model.encoder.layers." ++ idx ++ ".layer_norm1.weight", w) /\
  _convert_siglip_weight vc (_SIGLIP_TRANSFORMER_ENCODER_BLOCK ++ idx ++ "/LayerNorm_0", "bias") w =
    Ok ("vision_model.vision_model.encoder.layers." ++ idx ++ ".layer_norm1.bias", w) /\
  _convert_siglip_weight vc (_SIGLIP_TRANSFORMER_ENCODER_BLOCK ++ idx ++ "/LayerNorm_1", "scale") w =
    Ok ("vision_model.vision_model.encoder.layers." ++ idx ++ ".layer_norm2.weight", w) /\
  _convert_siglip_weight vc (_SIGLIP_TRANSFORMER_ENCODER_BLOCK ++ idx ++ "/LayerNorm_1", "bias") w =
    Ok ("vision_model.vision_model.encoder.layers." ++ idx ++ ".layer_norm2.bias", w) /\
  _convert_siglip_weight vc (_SIGLIP_TRANSFORMER_ENCODER_BLOCK ++ idx ++ "/MlpBlock_0/Dense_0", "bias") w =
    Ok ("vision_model.vision_model.encoder.layers." ++ idx ++ ".mlp.fc1.bias", w) /\
  _convert_siglip_weight vc (_SIGLIP_TRANSFORMER_ENCODER_BLOCK ++ idx ++ "/MlpBlock_0/Dense_1", "bias") w =
    Ok ("vision_model.vision_model.encoder.layers." ++ idx ++ ".mlp.fc2.bias", w).
Proof.
  intros Hs Hw Hl. pose proof (transpose_all_1d w n Hw Hl) as T.
  split; [reflexivity|]. split; [unfold _convert_siglip_weight; cbv beta iota zeta; rewrite T; reflexivity|].
  split; [reflexivity|].
  repeat split;
  match goal with
  | |- _convert_siglip_weight _ (_ ++ idx ++ String "/" ?rest, _) _ = _ =>
      siglip_block_prep (idx ++ String "/" rest)
  end;
  rewrite (find_sep _ _ _ Hs), slice_to_app, slice_from_app;
  rewrite <- (str_app_assoc _ idx); rewrite ?endswith_cut by reflexivity;
  cbv beta iota zeta; rewrite ?T, ?str_app_assoc; reflexivity.
Qed.

(** The MLP kernels of a SigLIP encoder block, Dense_0 as fc1 and Dense_1
    as fc2, are stored as the transpose of the 2-D input. *)
Theorem siglip_dense_kernels_transposed vc idx w a b :
  contains idx "/" = false -> shape w = [a; b] ->
  exists t,
    _convert_siglip_weight vc (_SIGLIP_TRANSFORMER_ENCODER_BLOCK ++ idx ++ "/MlpBlock_0/Dense_0", "kernel") w =
      Ok ("vision_model.vision_model.encoder.layers." ++ idx ++ ".mlp.fc1.weight", t) /\
    _convert_siglip_weight vc (_SIGLIP_TRANSFORMER_ENCODER_BLOCK ++ idx ++ "/MlpBlock_0/Dense_1", "kernel") w =
      Ok ("vision_model.vision_model.encoder.layers." ++ idx ++ ".mlp.fc2.weight", t) /\
    shape t = [b; a] /\ dtype_of t = dtype_of w /\
    forall i j, i < a -> j < b -> nth (j * a + i) (data t) 0%Z = nth (i * b + j) (data w) 0%Z.
Proof.
  intros Hs Hw. destruct (transpose_all_2d w a b Hw) as (t & E & St & Dt & _ & El).
  exists t. split; [|split; [|auto]]; siglip_block_run Hs; rewrite E, ?str_app_assoc; reflexivity.
Qed.

(** * Witnesses and counterexamples *)

Lemma kv_einsum_split_witness :
  exists k v,
    (let* t := transpose [0; 2; 1] (index0 (arange [2; 1; 4; 3]) 0) in
     reshape [Z.of_nat 3; Z.of_nat 4] t) = Ok k /\
    (let* t := transpose [0; 2; 1] (index0 (arange [2; 1; 4; 3]) 1) in
     reshape [Z.of_nat 3; Z.of_nat 4] t) = Ok v /\
    shape k = [3; 4] /\ shape v = [3; 4] /\
    _convert_transformer_weights tiny_text_config
      (_TRANSFORMER_DECODER_BLOCK ++ "5/attn/kv_einsum", "w") (arange [2; 1; 4; 3]) =
      Ok [(decoder_base_path "5/attn/kv_einsum" ++ ".self_attn.k_proj.weight", k);
          (decoder_base_path "5/attn/kv_einsum" ++ ".self_attn.v_proj.weight", v)].
Proof.
  apply (kv_einsum_split tiny_text_config "5/attn/kv_einsum" "w" (arange [2; 1; 4; 3]));
    vm_compute; reflexivity.
Defined.

Lemma gating_einsum_split_witness :
  _convert_transformer_weights tiny_text_config
    (_TRANSFORMER_DECODER_BLOCK ++ "0/mlp/gating_einsum", "w") (arange [2; 2; 3]) =
    Ok [(decoder_base_path "0/mlp/gating_einsum" ++ ".mlp.gate_proj.weight", index0 (arange [2; 2; 3]) 0);
        (decoder_base_path "0/mlp/gating_einsum" ++ ".mlp.up_proj.weight", index0 (arange [2; 2; 3]) 1)] /\
  shape (index0 (arange [2; 2; 3]) 0) = [2; 3] /\ shape (index0 (arange [2; 2; 3]) 1) = [2; 3] /\
  data (index0 (arange [2; 2; 3]) 0) = firstn (2 * 3) (data (arange [2; 2; 3])) /\
  data (index0 (arange [2; 2; 3]) 1) = firstn (2 * 3) (skipn (2 * 3) (data (arange [2; 2; 3]))).
Proof.
  apply (gating_einsum_split tiny_text_config "0/mlp/gating_einsum" "w" (arange [2; 2; 3]) 2 3);
    vm_compute; reflexivity.
Defined.

Lemma siglip_attention_transforms_witness :
  _convert_siglip_weight tiny_vision_config
    (_SIGLIP_TRANSFORMER_ENCODER_BLOCK ++ "3" ++ "/MultiHeadDotProductAttention_0" ++ "/query", "kernel")
    (arange [2; 1; 2]) =
    Ok ("vision_model.vision_model.encoder.layers.3.self_attn.q_proj.weight",
        mk_nd bfloat16 [2; 2] [0; 2; 1; 3]%Z) /\
  _convert_siglip_weight tiny_vision_config
    (_SIGLIP_TRANSFORMER_ENCODER_BLOCK ++ "3" ++ "/MultiHeadDotProductAttention_0" ++ "/other", "kernel")
    (arange [2; 1; 2]) =
    Err (UnexpectedPath
           (_SIGLIP_TRANSFORMER_ENCODER_BLOCK ++ "3" ++ "/MultiHeadDotProductAttention_0" ++ "/other")).
Proof.
  split.
  - rewrite (proj1 (siglip_attention_transforms tiny_vision_config "3" "/query" "kernel"
                      (arange [2; 1; 2]) eq_refl) AttnQuery eq_refl).
    vm_compute. reflexivity.
  - apply (proj2 (siglip_attention_transforms tiny_vision_config "3" "/other" "kernel"
                    (arange [2; 1; 2]) eq_refl)).
    intros []; reflexivity.
Defined.

Lemma text_paths_weights_same_length_witness :
  _convert_transformer_weights tiny_text_config (_TRANSFORMER_EMBEDDER, "input_embedding") (arange [3; 4])
    <> Err (LengthMismatch 2 1 _TRANSFORMER_EMBEDDER) /\
  List.length [("language_model.model.embed_tokens.weight", arange [3; 4]);
               ("language_model.lm_head.weight", arange [3; 4])] <= 2.
Proof.
  split.
  - apply (proj1 (text_paths_weights_same_length tiny_text_config
                    (_TRANSFORMER_EMBEDDER, "input_embedding") (arange [3; 4]))).
  - apply (proj2 (text_paths_weights_same_length tiny_text_config
                    (_TRANSFORMER_EMBEDDER, "input_embedding") (arange [3; 4]))).
    reflexivity.
Defined.

Lemma text_rule_errors_iff_witness :
  _convert_transformer_weights tiny_text_config
    ("transformer/embedder/mm_input_projection", "w") (arange [2]) = Ok [] /\
  exists e, _convert_transformer_weights tiny_text_config ("transformer/mlp", "w") (arange [2]) = Err e /\
            rule_error e = true.
Proof.
  split.
  - apply (text_rule_errors_iff tiny_text_config "transformer/embedder/mm_input_projection" "w"
             (arange [2])); reflexivity.
  - apply (text_rule_errors_iff tiny_text_config "transformer/mlp" "w" (arange [2])).
    reflexivity.
Defined.

(** A recognized kv_einsum path with a leading axis of 3 fails with a
    numpy shape error, and an embedder sub-path ending in the projection
    marker but not starting with ["transformer/embedder/mm"] is an error. *)
Lemma text_dispatch_raises_on_recognized_rule :
  text_rule_matches "transformer/layer_0/attn/kv_einsum" "w" = true /\
  _convert_transformer_weights tiny_text_config
    ("transformer/layer_0/attn/kv_einsum", "w") (arange [3; 1; 4; 3]) = Err ShapeError /\
  _convert_transformer_weights tiny_text_config
    ("transformer/embedder/extra/mm_input_projection", "w") (arange [2]) =
    Err (UnexpectedPath "transformer/embedder/extra/mm_input_projection").
Proof. vm_compute. repeat split. Qed.

Lemma stored_tensors_cast_via_float32_witness :
  exists em w,
    convert_emitted tiny_config_text_only [(("transformer/final_norm", "scale"), arange [3])] = Ok em /\
    In ("model.norm.weight", w) em /\
    mk_nd bfloat16 [3] [0; 0; 2]%Z = astype example_cast bfloat16 (astype example_cast float32 w) /\
    dtype_of (mk_nd bfloat16 [3] [0; 0; 2]%Z) = bfloat16 /\
    Forall (fun x => exists y, x = example_cast bfloat16 y) (data (mk_nd bfloat16 [3] [0; 0; 2]%Z)).
Proof.
  apply (stored_tensors_cast_via_float32 example_cast tiny_config_text_only bfloat16
           [(("transformer/final_norm", "scale"), arange [3])]
           [("model.norm.weight", mk_nd bfloat16 [3] [0; 0; 2]%Z)]
           ltac:(vm_compute; reflexivity) "model.norm.weight" (mk_nd bfloat16 [3] [0; 0; 2]%Z)).
  left. reflexivity.
Defined.

Lemma text_keys_start_with_language_model_witness :
  Forall (fun kw => lm_stripped (fst kw))
    [("language_model.model.layers.7.pre_feedforward_layernorm.weight", arange [4])].
Proof.
  apply (text_keys_start_with_language_model tiny_text_config
           ("transformer/layer_7/pre_ffw_norm", "scale") (arange [4])).
  vm_compute. reflexivity.
Defined.

Lemma no_vision_text_keys_only_witness :
  startswith "model.norm.weight" "vision_model." = false /\
  exists l pws w,
    In l [(("SigLiPFromPatches_0/siglip_encoder", "pos_embedding"), arange [2]);
          (("transformer/final_norm", "scale"), arange [3])] /\
    startswith (fst (fst l)) "SigLiPFromPatches_" = false /\
    _convert_transformer_weights tiny_text_config (fst l) (snd l) = Ok pws /\
    In (language_model_prefix ++ "model.norm.weight", w) pws.
Proof.
  apply (no_vision_text_keys_only example_cast tiny_config_text_only bfloat16
           [(("SigLiPFromPatches_0/siglip_encoder", "pos_embedding"), arange [2]);
            (("transformer/final_norm", "scale"), arange [3])]
           [("model.norm.weight", mk_nd bfloat16 [3] [0; 0; 2]%Z)]
           eq_refl ltac:(vm_compute; reflexivity)
           "model.norm.weight" (mk_nd bfloat16 [3] [0; 0; 2]%Z)).
  left. reflexivity.
Defined.

(** Without a vision configuration, a text-branch path whose layer index
    holds the sentinel text gives a stored key containing both
    ["SigLiPFromPatches_"] and ["vision_model."]. *)
Lemma vision_sentinel_in_text_key :
  convert example_cast tiny_config_text_only float32
    [(("transformer/layer_vision_model.SigLiPFromPatches_0/pre_ffw_norm", "scale"), arange [2])] =
    Ok [("model.layers.vision_model.SigLiPFromPatches_0.pre_feedforward_layernorm.weight",
         mk_nd float32 [2] [0; 1]%Z)] /\
  contains "model.layers.vision_model.SigLiPFromPatches_0.pre_feedforward_layernorm.weight"
    "SigLiPFromPatches_" = true /\
  contains "model.layers.vision_model.SigLiPFromPatches_0.pre_feedforward_layernorm.weight"
    "vision_model." = true.
Proof. vm_compute. repeat split. Qed.

(** Two leaves with distinct [(path, prop)] pairs under the final-norm path
    emit the same key; the second [update_tree] overwrites the first. *)
Lemma final_norm_leaves_share_key :
  convert_emitted tiny_config_text_only
    [(("transformer/final_norm", "scale"), arange [2]); (("transformer/final_norm", "bias"), arange [3])] =
    Ok [("model.norm.weight", arange [2]); ("model.norm.weight", arange [3])] /\
  convert example_cast tiny_config_text_only float32
    [(("transformer/final_norm", "scale"), arange [2]); (("transformer/final_norm", "bias"), arange [3])] =
    Ok [("model.norm.weight", mk_nd float32 [3] [0; 1; 2]%Z)].
Proof. vm_compute. split; reflexivity. Qed.

Lemma canonical_keys_unique_witness :
  (exists em,
    convert_emitted tiny_config_multimodal (canon_ckpt example_canon_ckpt) = Ok em /\
    no_scalars em = true /\
    (NoDup (map fst em) /\
     convert example_cast tiny_config_multimodal bfloat16 (canon_ckpt example_canon_ckpt) =
       (if no_scalars em then Ok (stored example_cast bfloat16 em) else Err FromNumpyTypeError))) /\
  (exists em,
    convert_emitted tiny_config_text_only (canon_ckpt example_canon_scalar_ckpt) = Ok em /\
    no_scalars em = false /\
    (NoDup (map fst em) /\
     convert example_cast tiny_config_text_only bfloat16 (canon_ckpt example_canon_scalar_ckpt) =
       (if no_scalars em then Ok (stored example_cast bfloat16 em) else Err FromNumpyTypeError))).
Proof.
  split.
  - exists (ok_or_nil (convert_emitted tiny_config_multimodal (canon_ckpt example_canon_ckpt))).
    assert (E : convert_emitted tiny_config_multimodal (canon_ckpt example_canon_ckpt) =
                Ok (ok_or_nil (convert_emitted tiny_config_multimodal (canon_ckpt example_canon_ckpt))))
      by (vm_compute; reflexivity).
    split; [exact E|]. split; [vm_compute; reflexivity|].
    apply (canonical_keys_unique example_cast tiny_config_multimodal bfloat16 example_canon_ckpt _).
    + vm_compute. reflexivity.
    + vm_compute. repeat constructor; simpl; intuition congruence.
    + exact E.
  - exists (ok_or_nil (convert_emitted tiny_config_text_only (canon_ckpt example_canon_scalar_ckpt))).
    assert (E : convert_emitted tiny_config_text_only (canon_ckpt example_canon_scalar_ckpt) =
                Ok (ok_or_nil (convert_emitted tiny_config_text_only (canon_ckpt example_canon_scalar_ckpt))))
      by (vm_compute; reflexivity).
    split; [exact E|]. split; [vm_compute; reflexivity|].
    apply (canonical_keys_unique example_cast tiny_config_text_only bfloat16 example_canon_scalar_ckpt _).
    + vm_compute. reflexivity.
    + vm_compute. repeat constructor; simpl; intuition congruence.
    + exact E.
Defined.

Lemma convert_keys_first_occurrence_witness :
  NoDup (map fst (ok_or_nil (convert example_cast tiny_config_text_only bfloat16 example_ckpt))) /\
  map fst (ok_or_nil (convert example_cast tiny_config_text_only bfloat16 example_ckpt)) =
    first_occ_from [] (map fst (ok_or_nil (convert_emitted tiny_config_text_only example_ckpt))).
Proof.
  apply (convert_keys_first_occurrence example_cast tiny_config_text_only bfloat16 example_ckpt);
    vm_compute; reflexivity.
Defined.

Lemma convert_last_write_wins_witness :
  dict_get (ok_or_nil (convert example_cast tiny_config_text_only bfloat16 example_ckpt)) "model.norm.weight" =
    option_map (fun kw => astype example_cast bfloat16 (astype example_cast float32 (snd kw)))
      (List.find (fun kw => String.eqb (fst kw) "model.norm.weight")
         (List.rev (ok_or_nil (convert_emitted tiny_config_text_only example_ckpt)))).
Proof.
  apply (convert_last_write_wins example_cast tiny_config_text_only bfloat16 example_ckpt);
    vm_compute; reflexivity.
Defined.

Lemma convert_skips_siglip_without_vision_witness :
  convert example_cast tiny_config_text_only bfloat16 example_ckpt =
  convert example_cast tiny_config_text_only bfloat16
    (filter (fun l => negb (startswith (fst (fst l)) "SigLiPFromPatches_")) example_ckpt).
Proof. apply convert_skips_siglip_without_vision. reflexivity. Defined.

Lemma convert_error_kinds_witness :
  (rule_error (UnexpectedPath "transformer/layer_0/mlp/unknown_leaf") = true \/
   UnexpectedPath "transformer/layer_0/mlp/unknown_leaf" = ShapeError \/
   UnexpectedPath "transformer/layer_0/mlp/unknown_leaf" = FromNumpyTypeError) /\
  (rule_error FromNumpyTypeError = true \/ FromNumpyTypeError = ShapeError \/
   FromNumpyTypeError = FromNumpyTypeError).
Proof.
  split.
  - apply (convert_error_kinds example_cast tiny_config_text_only bfloat16 example_bad_ckpt).
    vm_compute. reflexivity.
  - apply (convert_error_kinds example_cast tiny_config_text_only bfloat16 example_scalar_ckpt).
    vm_compute. reflexivity.
Defined.

Lemma gating_einsum_1d_type_error_witness :
  endswith (_TRANSFORMER_DECODER_BLOCK ++ "0/mlp/gating_einsum") "mlp/gating_einsum" = true /\
  shape (arange [2]) = [2] /\
  convert example_cast tiny_config_multimodal bfloat16
    [((_TRANSFORMER_DECODER_BLOCK ++ "0/mlp/gating_einsum", "w"), arange [2])] = Err FromNumpyTypeError.
Proof.
  split; [reflexivity|]. split; [reflexivity|].
  apply (gating_einsum_1d_type_error example_cast tiny_config_multimodal bfloat16
           "0/mlp/gating_einsum" "w" (arange [2])); reflexivity.
Defined.

Lemma convert_error_first_failing_leaf_witness :
  (exists pre l post, example_bad_ckpt = (pre ++ l :: post)%list /\
     Forall (fun l' => leaf_error tiny_config_text_only l' = None) pre /\
     leaf_error tiny_config_text_only l = Some (UnexpectedPath "transformer/layer_0/mlp/unknown_leaf")) /\
  (exists pre l post, example_scalar_ckpt = (pre ++ l :: post)%list /\
     Forall (fun l' => leaf_error tiny_config_text_only l' = None) pre /\
     leaf_error tiny_config_text_only l = Some FromNumpyTypeError).
Proof.
  split.
  - apply (proj1 (convert_error_first_failing_leaf example_cast tiny_config_text_only bfloat16
                    example_bad_ckpt _)).
    vm_compute. reflexivity.
  - apply (proj1 (convert_error_first_failing_leaf example_cast tiny_config_text_only bfloat16
                    example_scalar_ckpt _)).
    vm_compute. reflexivity.
Defined.

Lemma siglip_keys_in_vision_namespace_witness :
  startswith "vision_model.vision_model.embeddings.patch_embedding.bias" "vision_model.vision_model." = true.
Proof.
  apply (siglip_keys_in_vision_namespace tiny_vision_config (_SIGLIP_EMBEDDING, "bias") (arange [2])
           _ (arange [2])).
  reflexivity.
Defined.

Lemma convert_multimodal_key_namespaces_witness :
  Forall (fun kt => startswith (fst kt) "language_model." = true \/
                    startswith (fst kt) "vision_model.vision_model." = true)
    (ok_or_nil (convert example_cast tiny_config_multimodal bfloat16 example_ckpt)).
Proof.
  apply Forall_forall. intros [k t] Hin.
  exact (convert_multimodal_key_namespaces example_cast tiny_config_multimodal bfloat16 example_ckpt
           _ tiny_vision_config eq_refl ltac:(vm_compute; reflexivity) k t Hin).
Defined.

Lemma convert_text_only_key_names_witness :
  Forall (fun kt => startswith (fst kt) "model." = true \/ fst kt = "lm_head.weight")
    (ok_or_nil (convert example_cast tiny_config_text_only bfloat16 example_ckpt)).
Proof.
  apply Forall_forall. intros [k t] Hin.
  exact (convert_text_only_key_names example_cast tiny_config_text_only bfloat16 example_ckpt
           _ eq_refl ltac:(vm_compute; reflexivity) k t Hin).
Defined.

Lemma transpose_reshape_q_einsum_witness :
  exists y, transpose_reshape (arange [2; 4; 3]) = Ok y /\ shape y = [2 * 3; 4] /\
    dtype_of y = dtype_of (arange [2; 4; 3]) /\
    (forall i j k, i < 2 -> j < 3 -> k < 4 ->
       nth ((i * 3 + j) * 4 + k) (data y) 0%Z = nth ((i * 4 + k) * 3 + j) (data (arange [2; 4; 3])) 0%Z) /\
    _convert_transformer_weights tiny_text_config
      (_TRANSFORMER_DECODER_BLOCK ++ "0/attn/q_einsum", "w") (arange [2; 4; 3]) =
      Ok [(decoder_base_path "0/attn/q_einsum" ++ ".self_attn.q_proj.weight", y)].
Proof. apply transpose_reshape_q_einsum; reflexivity. Defined.

Lemma decoder_layer_index_kept_witness :
  Forall (fun kw => startswith (fst kw) ("language_model.model.layers." ++ "12" ++ ".") = true)
    (ok_or_nil (_convert_transformer_weights tiny_text_config
       (_TRANSFORMER_DECODER_BLOCK ++ "12" ++ "/" ++ "attn/kv_einsum", "w") (arange [2; 1; 4; 3]))).
Proof. apply (decoder_layer_index_kept tiny_text_config "12" "attn/kv_einsum" "w" (arange [2; 1; 4; 3])); vm_compute; reflexivity. Defined.

Lemma decoder_index_without_separator_witness :
  Forall (fun kw => startswith (fst kw)
            ("language_model.model.layers." ++ substring 0 (String.length "0_pre_ffw_norm" - 1) "0_pre_ffw_norm" ++ ".") = true)
    (ok_or_nil (_convert_transformer_weights tiny_text_config
       (_TRANSFORMER_DECODER_BLOCK ++ "0_pre_ffw_norm", "scale") (arange [4]))).
Proof. apply (decoder_index_without_separator tiny_text_config "0_pre_ffw_norm" "scale" (arange [4])); vm_compute; reflexivity. Defined.

Lemma decoder_norms_unchanged_witness :
  _convert_transformer_weights tiny_text_config (_TRANSFORMER_DECODER_BLOCK ++ "0/pre_ffw_norm", "scale") (arange [4]) =
    Ok [(decoder_base_path "0/pre_ffw_norm" ++ ".pre_feedforward_layernorm.weight", arange [4])].
Proof.
  apply (decoder_norms_unchanged _ _ _ _ "pre_ffw_norm"); [simpl; tauto | reflexivity].
Defined.

Lemma decoder_mlp_linear_transposed_witness :
  exists t, _convert_transformer_weights tiny_text_config (_TRANSFORMER_DECODER_BLOCK ++ "0/mlp/linear", "w") (arange [2; 3]) =
      Ok [(decoder_base_path "0/mlp/linear" ++ ".mlp.down_proj.weight", t)] /\
    shape t = [3; 2] /\ dtype_of t = dtype_of (arange [2; 3]) /\
    forall a b, a < 2 -> b < 3 -> nth (b * 2 + a) (data t) 0%Z = nth (a * 3 + b) (data (arange [2; 3])) 0%Z.
Proof. apply decoder_mlp_linear_transposed; reflexivity. Defined.

Lemma decoder_attn_vec_einsum_witness :
  exists t, _convert_transformer_weights tiny_text_config
      (_TRANSFORMER_DECODER_BLOCK ++ "0/attn/attn_vec_einsum", "w") (arange [2; 3; 4]) =
      Ok [(decoder_base_path "0/attn/attn_vec_einsum" ++ ".self_attn.o_proj.weight", t)] /\
    shape t = [4; 2 * 3] /\ dtype_of t = dtype_of (arange [2; 3; 4]) /\
    forall i j k, i < 2 -> j < 3 -> k < 4 ->
      nth (k * (2 * 3) + (i * 3 + j)) (data t) 0%Z = nth ((i * 3 + j) * 4 + k) (data (arange [2; 3; 4])) 0%Z.
Proof. apply decoder_attn_vec_einsum; reflexivity. Defined.

Lemma siglip_block_without_separator_witness :
  _convert_siglip_weight tiny_vision_config (_SIGLIP_TRANSFORMER_ENCODER_BLOCK ++ "3", "scale") (arange [2]) =
    Err (UnexpectedPath (_SIGLIP_TRANSFORMER_ENCODER_BLOCK ++ "3")).
Proof. apply siglip_block_without_separator. reflexivity. Defined.

Lemma siglip_layer_index_kept_witness :
  startswith (fst_or_empty (_convert_siglip_weight tiny_vision_config
      (_SIGLIP_TRANSFORMER_ENCODER_BLOCK ++ "7" ++ "/" ++ "MultiHeadDotProductAttention_0/query", "kernel") (arange [2; 1; 2])))
    ("vision_model.vision_model.encoder.layers." ++ "7" ++ ".") = true.
Proof.
  apply (siglip_layer_index_kept tiny_vision_config "7" "MultiHeadDotProductAttention_0/query" "kernel"
           (arange [2; 1; 2]) _
           (match _convert_siglip_weight tiny_vision_config
              (_SIGLIP_TRANSFORMER_ENCODER_BLOCK ++ "7" ++ "/" ++ "MultiHeadDotProductAttention_0/query", "kernel")
              (arange [2; 1; 2]) with Ok (_, t) => t | Err _ => arange [] end));
    vm_compute; reflexivity.
Defined.

Lemma siglip_patch_kernel_witness :
  exists t, _convert_siglip_weight tiny_vision_config (_SIGLIP_EMBEDDING, "kernel") (arange [2; 2; 1; 3]) =
      Ok ("vision_model.vision_model.embeddings.patch_embedding.weight", t) /\
    shape t = [3; 1; 2; 2] /\ dtype_of t = dtype_of (arange [2; 2; 1; 3]) /\
    forall a b i j, a < 2 -> b < 2 -> i < 1 -> j < 3 ->
      nth (((j * 1 + i) * 2 + a) * 2 + b) (data t) 0%Z =
      nth (((a * 2 + b) * 1 + i) * 3 + j) (data (arange [2; 2; 1; 3])) 0%Z.
Proof. apply siglip_patch_kernel. reflexivity. Defined.

Lemma siglip_unchanged_leaves_witness :
  _convert_siglip_weight tiny_vision_config (_SIGLIP_TRANSFORMER_ENCODER_BLOCK ++ "0" ++ "/LayerNorm_1", "scale") (arange [2]) =
    Ok ("vision_model.vision_model.encoder.layers." ++ "0" ++ ".layer_norm2.weight", arange [2]).
Proof.
  apply (siglip_unchanged_leaves tiny_vision_config "0" (arange [2]) 2); reflexivity.
Defined.

Lemma siglip_dense_kernels_transposed_witness :
  exists t,
    _convert_siglip_weight tiny_vision_config (_SIGLIP_TRANSFORMER_ENCODER_BLOCK ++ "0" ++ "/MlpBlock_0/Dense_0", "kernel") (arange [2; 3]) =
      Ok ("vision_model.vision_model.encoder.layers." ++ "0" ++ ".mlp.fc1.weight", t) /\
    _convert_siglip_weight tiny_vision_config (_SIGLIP_TRANSFORMER_ENCODER_BLOCK ++ "0" ++ "/MlpBlock_0/Dense_1", "kernel") (arange [2; 3]) =
      Ok ("vision_model.vision_model.encoder.layers." ++ "0" ++ ".mlp.fc2.weight", t) /\
    shape t = [3; 2] /\ dtype_of t = dtype_of (arange [2; 3]) /\
    forall i j, i < 2 -> j < 3 -> nth (j * 2 + i) (data t) 0%Z = nth (i * 3 + j) (data (arange [2; 3])) 0%Z.
Proof. apply siglip_dense_kernels_transposed; reflexivity. Defined.
